(** * ATS resume analyser: the result validator, the action plan and the
      score rules of [ats_analyser.py] and [app.py]

    The development embeds the pure logic of the two Python files:
    [prepare_prompt], [get_gemini_response], [process_ats_results] and
    [generate_action_plan] of [ats_analyser.py], and the score extraction and
    labelling of [display_score_card] and [generate_pdf_report] of [app.py].

    Python values are JSON-shaped (what [json.loads] builds, floats left out);
    text is a sequence of code points below 256, on which the character
    classes are those of CPython's Unicode tables; an exception is a value of
    [exn], and a call that can raise returns a [result]. *)

From Stdlib Require Import ZArith List Bool Lia Ascii String DecimalString.
From Stdlib Require DecimalZ.
Import ListNotations.
Local Open Scope string_scope.
Local Open Scope Z_scope.
Set Warnings "-register-all".

(** ** Exceptions and results *)

(** The exceptions the modelled code can raise.  [ValueError] and [Exception]
    carry the message the source gives them; the others are raised by the
    interpreter or a library.  [Reraised p e] is
    [raise Exception(f"{p}: {str(e)}")] in a handler that caught [e]. *)
Inductive exn : Type :=
| ValueError (msg : string)
| IntValueError            (* the ValueError of int() on a bad literal *)
| IndexError
| TypeError
| AttributeError
| KeyError
| JSONDecodeError
| Exception (msg : string)
| Reraised (prefix : string) (cause : exn).

Inductive result (A : Type) : Type :=
| Ok (a : A)
| Raise (e : exn).
Arguments Ok {A} a.
Arguments Raise {A} e.

Definition bind {A B : Type} (r : result A) (k : A -> result B) : result B :=
  match r with
  | Ok a => k a
  | Raise e => Raise e
  end.

Notation "x <- r ;; k" := (bind r (fun x => k))
  (at level 61, r at next level, right associativity).

(** [try: ... except Exception as e: raise Exception(f"{p}: {str(e)}")] *)
Definition except_reraise {A : Type} (p : string) (r : result A) : result A :=
  match r with
  | Ok a => Ok a
  | Raise e => Raise (Reraised p e)
  end.

Definition succeeds {A : Type} (r : result A) : bool :=
  match r with Ok _ => true | Raise _ => false end.

(** ** Characters and text *)

Module Py.

Definition code (c : ascii) : Z := Z.of_N (N_of_ascii c).

(** [str.isspace] on one character, which [str.split()] and [str.strip()]
    use as well: TAB..CR, FS..US, SPACE, NEL and NBSP. *)
Definition isspace (c : ascii) : bool :=
  let n := code c in
  ((9 <=? n) && (n <=? 13)) || ((28 <=? n) && (n <=? 32))
  || (n =? 133) || (n =? 160).

(** The characters [int()] reads as decimal digits. *)
Definition isdecimal (c : ascii) : bool :=
  let n := code c in (48 <=? n) && (n <=? 57).

(** [str.isdigit] on one character: the decimal digits and the superscript
    digits of Latin-1, which [int()] does not accept. *)
Definition isdigit (c : ascii) : bool :=
  let n := code c in
  isdecimal c || (n =? 178) || (n =? 179) || (n =? 185).

Fixpoint filter (p : ascii -> bool) (s : string) : string :=
  match s with
  | EmptyString => EmptyString
  | String c t => if p c then String c (filter p t) else filter p t
  end.

Fixpoint forallb (p : ascii -> bool) (s : string) : bool :=
  match s with
  | EmptyString => true
  | String c t => p c && forallb p t
  end.

Fixpoint lstrip (s : string) : string :=
  match s with
  | EmptyString => EmptyString
  | String c t => if isspace c then lstrip t else s
  end.

Fixpoint rstrip (s : string) : string :=
  match s with
  | EmptyString => EmptyString
  | String c t =>
      match rstrip t with
      | EmptyString => if isspace c then EmptyString else String c EmptyString
      | t' => String c t'
      end
  end.

(** [s.strip()] *)
Definition strip (s : string) : string := rstrip (lstrip s).

(** [s.split()]: the maximal runs of non-whitespace characters, in order.
    [runs s] is the run that starts at the head of [s] (empty when [s]
    starts with whitespace or is empty) and the runs after it. *)
Definition push_run (w : string) (l : list string) : list string :=
  match w with
  | EmptyString => l
  | _ => w :: l
  end.

Fixpoint runs (s : string) : string * list string :=
  match s with
  | EmptyString => (EmptyString, [])
  | String c t =>
      let (w, l) := runs t in
      if isspace c then (EmptyString, push_run w l) else (String c w, l)
  end.

Definition split (s : string) : list string :=
  let (w, l) := runs s in push_run w l.

(** [l[0]] *)
Definition item0 {A : Type} (l : list A) : result A :=
  match l with
  | [] => Raise IndexError
  | x :: _ => Ok x
  end.

(** The default of [sys.get_int_max_str_digits()]. *)
Definition max_str_digits : nat := 4300.

Fixpoint decimal_value (acc : Z) (s : string) : Z :=
  match s with
  | EmptyString => acc
  | String c t => decimal_value (10 * acc + (code c - 48)) t
  end.

(** [int(s)] for a text [s] without whitespace, sign or underscore (the
    texts that [filter(str.isdigit, _)] yields): a ValueError unless [s] is
    a non-empty run of decimal digits within the interpreter's length
    limit. *)
Definition int (s : string) : result Z :=
  match s with
  | EmptyString => Raise IntValueError
  | _ =>
      if forallb isdecimal s && Nat.leb (String.length s) max_str_digits
      then Ok (decimal_value 0 s)
      else Raise IntValueError
  end.

End Py.

(** ** Python values *)

(** What [json.loads] builds, floats left out: [None], booleans, integers,
    text, lists, and dicts with text keys in insertion order. *)
Inductive value : Type :=
| VNone
| VBool (b : bool)
| VInt (z : Z)
| VStr (s : string)
| VList (l : list value)
| VDict (d : list (string * value)).

Module Val.

Definition hex_digit (n : Z) : ascii :=
  if n <? 10 then ascii_of_N (Z.to_N (48 + n)) else ascii_of_N (Z.to_N (87 + n)).

Definition chr (n : Z) : ascii := ascii_of_N (Z.to_N n).
Definition backslash : ascii := chr 92.
Definition squote : ascii := chr 39.
Definition dquote : ascii := chr 34.

Fixpoint has_char (q : ascii) (s : string) : bool :=
  match s with
  | EmptyString => false
  | String c t => Ascii.eqb c q || has_char q t
  end.

(** [str.isprintable] on one character above DEL: the controls 128..159,
    NBSP and the soft hyphen are not printable. *)
Definition isprintable_high (n : Z) : bool :=
  (160 <? n) && negb (n =? 173).

(** One character of [repr] of a text delimited by [q]. *)
Definition repr_char (q c : ascii) : string :=
  let n := Py.code c in
  if Ascii.eqb c q || Ascii.eqb c backslash then String backslash (String c "")
  else if n =? 9 then String backslash "t"
  else if n =? 10 then String backslash "n"
  else if n =? 13 then String backslash "r"
  else if (n <? 32) || (n =? 127) || ((127 <? n) && negb (isprintable_high n))
  then String backslash (String "x" (String (hex_digit (n / 16))
                                        (String (hex_digit (n mod 16)) "")))
  else String c "".

Fixpoint repr_chars (q : ascii) (s : string) : string :=
  match s with
  | EmptyString => EmptyString
  | String c t => repr_char q c ++ repr_chars q t
  end.

(** [repr(s)] of a text: single quotes, unless the text has a single quote
    and no double quote. *)
Definition repr_str (s : string) : string :=
  let q := if has_char squote s && negb (has_char dquote s)
           then dquote else squote in
  String q (repr_chars q s ++ String q "").

(** [str(n)] of an integer. *)
Definition str_int (z : Z) : string := NilZero.string_of_int (Z.to_int z).

Fixpoint join (sep : string) (l : list string) : string :=
  match l with
  | [] => ""
  | [x] => x
  | x :: t => x ++ sep ++ join sep t
  end.

(** [repr(v)] *)
Fixpoint repr (v : value) : string :=
  match v with
  | VNone => "None"
  | VBool true => "True"
  | VBool false => "False"
  | VInt z => str_int z
  | VStr s => repr_str s
  | VList l => "[" ++ join ", " (List.map repr l) ++ "]"
  | VDict d =>
      "{" ++ join ", " (List.map (fun kv => repr_str (fst kv) ++ ": " ++ repr (snd kv)) d)
          ++ "}"
  end.

(** [str(v)]: the text itself, and [repr] for the rest. *)
Definition str (v : value) : string :=
  match v with
  | VStr s => s
  | _ => repr v
  end.

Fixpoint lookup (k : string) (d : list (string * value)) : option value :=
  match d with
  | [] => None
  | (k', v) :: t => if String.eqb k' k then Some v else lookup k t
  end.

Definition is_str (k : string) (v : value) : bool :=
  match v with
  | VStr s => String.eqb s k
  | _ => false
  end.

Fixpoint is_substring (k s : string) : bool :=
  String.prefix k s ||
  match s with
  | EmptyString => false
  | String _ t => is_substring k t
  end.

(** [k in data] for a text [k]: a key of a dict, an element of a list, a
    substring of a text; the other values are not iterable. *)
Definition contains (data : value) (k : string) : result bool :=
  match data with
  | VDict d => Ok (match lookup k d with Some _ => true | None => false end)
  | VList l => Ok (List.existsb (is_str k) l)
  | VStr s => Ok (is_substring k s)
  | _ => Raise TypeError
  end.

(** [data[k]] for a text [k], evaluated where [k in data] holds. *)
Definition getitem (data : value) (k : string) : result value :=
  match data with
  | VDict d =>
      match lookup k d with
      | Some v => Ok v
      | None => Raise KeyError
      end
  | _ => Raise TypeError
  end.

(** [data.get(k, default)]: only a dict has the method. *)
Definition get (data : value) (k : string) (default : value) : result value :=
  match data with
  | VDict d =>
      Ok (match lookup k d with Some v => v | None => default end)
  | _ => Raise AttributeError
  end.

(** [v != s] for a text [s]. *)
Definition ne_str (v : value) (s : string) : bool := negb (is_str s v).

End Val.

(** ** Regular expressions: the fragment [re.search] is used with *)

Module Re.

Inductive atom : Type :=
| Chr (c : ascii)      (* an escaped or plain character *)
| Dot.                 (* [.] *)

Inductive item : Type :=
| One (a : atom)
| Star (a : atom).     (* greedy [a*] *)

Definition regex : Type := list item.

Definition newline : ascii := Val.chr 10.

(** [dotall] is the flag [re.DOTALL]: without it [.] skips the newline. *)
Definition accepts (dotall : bool) (a : atom) (c : ascii) : bool :=
  match a with
  | Chr x => Ascii.eqb c x
  | Dot => dotall || negb (Ascii.eqb c newline)
  end.

(** Greedy repetition by backtracking: take one more character first, and
    only when the rest of the pattern [k] fails after it, stop here. *)
Fixpoint star (p : ascii -> bool) (k : string -> option string) (s : string)
  : option string :=
  match s with
  | EmptyString => k EmptyString
  | String c t =>
      if p c
      then match star p k t with
           | Some rest => Some rest
           | None => k s
           end
      else k s
  end.

(** The match of [r] at the head of [s] that the backtracking engine finds
    first, as the text left after it. *)
Fixpoint match_here (dotall : bool) (r : regex) (s : string) : option string :=
  match r with
  | [] => Some s
  | One a :: r' =>
      match s with
      | EmptyString => None
      | String c t => if accepts dotall a c then match_here dotall r' t else None
      end
  | Star a :: r' => star (accepts dotall a) (match_here dotall r') s
  end.

Fixpoint take (n : nat) (s : string) : string :=
  match n, s with
  | S n', String c t => String c (take n' t)
  | _, _ => EmptyString
  end.

(** [re.search(r, s, flags)] followed by [.group()]: the match at the
    leftmost position that has one. *)
Fixpoint search (dotall : bool) (r : regex) (s : string) : option string :=
  match match_here dotall r s with
  | Some rest => Some (take (String.length s - String.length rest) s)
  | None =>
      match s with
      | EmptyString => None
      | String _ t => search dotall r t
      end
  end.

End Re.

(** ** [str.format] with named fields *)

Module Fmt.

Definition lbrace : ascii := Val.chr 123.
Definition rbrace : ascii := Val.chr 125.

Fixpoint lookup (k : string) (env : list (string * string)) : option string :=
  match env with
  | [] => None
  | (k', v) :: t => if String.eqb k' k then Some v else lookup k t
  end.

(** [template.format] with keyword arguments [env] only, for a template
    whose replacement fields are plain names (no conversion, format
    specification, attribute or index): a doubled brace is a literal brace,
    and [{name}] is replaced by the text bound to [name].  [field] is [None]
    in literal text and the name read so far inside a field. *)
Fixpoint go (env : list (string * string)) (field : option string) (s : string)
  : result string :=
  match field with
  | None =>
      match s with
      | EmptyString => Ok EmptyString
      | String c t =>
          if Ascii.eqb c lbrace then
            match t with
            | String c' t' =>
                if Ascii.eqb c' lbrace
                then r <- go env None t' ;; Ok (String lbrace r)
                else go env (Some EmptyString) t
            | EmptyString =>
                Raise (ValueError "Single '{' encountered in format string")
            end
          else if Ascii.eqb c rbrace then
            match t with
            | String c' t' =>
                if Ascii.eqb c' rbrace
                then r <- go env None t' ;; Ok (String rbrace r)
                else Raise (ValueError "Single '}' encountered in format string")
            | EmptyString =>
                Raise (ValueError "Single '}' encountered in format string")
            end
          else r <- go env None t ;; Ok (String c r)
      end
  | Some name =>
      match s with
      | EmptyString =>
          Raise (ValueError "expected '}' before end of string")
      | String c t =>
          if Ascii.eqb c rbrace then
            match name with
            | EmptyString => Raise IndexError
            | _ =>
                match lookup name env with
                | Some v => r <- go env None t ;; Ok (v ++ r)
                | None => Raise KeyError
                end
            end
          else if Ascii.eqb c lbrace
          then Raise (ValueError "unexpected '{' in field name")
          else go env (Some (name ++ String c EmptyString)) t
      end
  end.

Definition format (template : string) (env : list (string * string))
  : result string :=
  go env None template.

End Fmt.

(** ** The prompt template of [ats_analyser.py] *)

(** The text of [prompt_template] in [prepare_prompt], cut at its two
    replacement fields, and the last part at its double quotes. *)
Definition template_head : string :=
"
    Act as a senior ATS (Applicant Tracking System) specialist and career consultant with 15+ years of experience in:
    - Technical recruitment and talent acquisition
    - Software engineering, DevOps, and cloud technologies
    - Data science, machine learning, and AI
    - Data analysis and business intelligence
    - Big data engineering and distributed systems
    - Product management and technical leadership
    
    You understand how modern ATS systems work, including keyword matching algorithms, 
    semantic analysis, and ranking mechanisms used by companies like Google, Amazon, Microsoft, and Fortune 500 firms.
    
    ANALYSIS TASK:
    Perform a comprehensive evaluation of the following resume against the job description. 
    Consider the highly competitive job market and provide actionable insights for optimization.
    
    RESUME CONTENT:
    ".

Definition template_middle : string :=
"
    
    JOB DESCRIPTION:
    ".

Definition template_tail : string :=
  Val.join (String Val.dquote EmptyString) [
"
    
    EVALUATION CRITERIA:
    1. Keyword density and relevance matching
    2. Skills alignment with job requirements
    3. Experience level and domain expertise
    4. Education and certification relevance
    5. ATS-friendliness (formatting, structure, parsing)
    6. Achievement quantification and impact demonstration
    7. Industry-specific terminology usage
    8. Role progression and career trajectory
    
    Provide your analysis in the following JSON format ONLY (no additional text):
    {{
        ";
"JD Match";
": ";
"percentage score between 0-100 with brief justification";
",
        ";
"ATSScore";
": ";
"ATS parsing and keyword optimization score (0-100)";
",
        ";
"MissingKeywords";
": [
            ";
"critical technical keywords not found in resume";
",
            ";
"include both hard and soft skills";
",
            ";
"prioritize by importance to the role";
"
        ],
        ";
"SkillsAlignment";
": {{
            ";
"MatchedSkills";
": [";
"skills that align well with JD";
"],
            ";
"PartiallyMatched";
": [";
"skills with some relevance";
"],
            ";
"GapAnalysis";
": ";
"detailed analysis of skill gaps";
"
        }},
        ";
"ExperienceMatch";
": {{
            ";
"RelevantExperience";
": ";
"assessment of relevant experience years and domains";
",
            ";
"LevelAlignment";
": ";
"junior/mid/senior level match analysis";
",
            ";
"IndustryFit";
": ";
"industry background compatibility assessment";
"
        }},
        ";
"Profile Summary";
": ";
"comprehensive 3-4 sentence analysis covering overall match quality, strongest selling points, and competitive positioning";
",
        ";
"Recommendations";
": {{
            ";
"HighPriority";
": [
                ";
"most critical improvements for immediate implementation";
",
                ";
"focus on top 3-5 actionable items";
"
            ],
            ";
"MediumPriority";
": [
                ";
"important enhancements for better positioning";
",
                ";
"include formatting and structure improvements";
"
            ],
            ";
"KeywordOptimization";
": [
                ";
"specific phrases and terms to incorporate naturally";
",
                ";
"suggest placement strategies (summary, skills, experience)";
"
            ],
            ";
"QuantificationOpportunities";
": [
                ";
"areas where metrics and numbers should be added";
",
                ";
"suggest specific types of achievements to highlight";
"
            ]
        }},
        ";
"RedFlags";
": [
            ";
"potential issues that might cause automatic rejection";
",
            ";
"formatting or content problems for ATS parsing";
"
        ],
        ";
"CompetitiveAdvantage";
": ";
"unique strengths and differentiators to emphasize";
"
    }}
    
    IMPORTANT NOTES:
    - Be specific and actionable in recommendations
    - Consider both ATS optimization and human reviewer appeal
    - Focus on realistic improvements rather than complete rewrites
    - Prioritize changes that provide maximum impact
    - Consider current market trends and in-demand skills
    "
  ].

Definition prompt_template : string :=
  template_head ++ "{resume_text}" ++ template_middle
    ++ "{job_description}" ++ template_tail.

(** The last part as [format] leaves it, its doubled braces single. *)
Definition prompt_tail : string :=
  match Fmt.format template_tail [] with
  | Ok t => t
  | Raise _ => EmptyString
  end.

(** ** A reference instance of [json.loads] and [json.dumps]

    The analyser is parametric in the JSON parser.  This instance reads and
    writes the JSON texts of the values above; a text with a float or with
    an escape beyond Latin-1 is outside it and is not read.  The closed
    examples of the development run on it. *)

Module Json.

Definition hex_value (c : ascii) : option Z :=
  let n := Py.code c in
  if (48 <=? n) && (n <=? 57) then Some (n - 48)
  else if (97 <=? n) && (n <=? 102) then Some (n - 87)
  else if (65 <=? n) && (n <=? 70) then Some (n - 55)
  else None.

(** JSON whitespace: space, TAB, LF, CR. *)
Definition is_ws (c : ascii) : bool :=
  let n := Py.code c in (n =? 32) || (n =? 9) || (n =? 10) || (n =? 13).

Fixpoint skip_ws (s : string) : string :=
  match s with
  | String c t => if is_ws c then skip_ws t else s
  | EmptyString => EmptyString
  end.

(** The body of a string literal, after its opening quote. *)
Fixpoint read_string (s : string) : option (string * string) :=
  match s with
  | EmptyString => None
  | String c t =>
      if Ascii.eqb c Val.dquote then Some (EmptyString, t)
      else if Ascii.eqb c Val.backslash then
        match t with
        | String e t' =>
            let plain (x : ascii) :=
              match read_string t' with
              | Some (r, rest) => Some (String x r, rest)
              | None => None
              end in
            let n := Py.code e in
            if Ascii.eqb e Val.dquote then plain Val.dquote
            else if Ascii.eqb e Val.backslash then plain Val.backslash
            else if n =? 47 then plain e
            else if n =? 98 then plain (Val.chr 8)
            else if n =? 102 then plain (Val.chr 12)
            else if n =? 110 then plain (Val.chr 10)
            else if n =? 114 then plain (Val.chr 13)
            else if n =? 116 then plain (Val.chr 9)
            else if n =? 117 then
              match t' with
              | String h1 (String h2 (String h3 (String h4 t''))) =>
                  match hex_value h1, hex_value h2, hex_value h3, hex_value h4 with
                  | Some 0, Some 0, Some a, Some b =>
                      match read_string t'' with
                      | Some (r, rest) => Some (String (Val.chr (16 * a + b)) r, rest)
                      | None => None
                      end
                  | _, _, _, _ => None
                  end
              | _ => None
              end
            else None
        | EmptyString => None
        end
      else if Py.code c <? 32 then None
      else
        match read_string t with
        | Some (r, rest) => Some (String c r, rest)
        | None => None
        end
  end.

Fixpoint read_digits (s : string) : string * string :=
  match s with
  | String c t =>
      if Py.isdecimal c then let (d, r) := read_digits t in (String c d, r)
      else (EmptyString, s)
  | EmptyString => (EmptyString, EmptyString)
  end.

(** An integer literal without sign: no leading zero before another digit. *)
Definition read_nat (s : string) : option (Z * string) :=
  match read_digits s with
  | (EmptyString, _) => None
  | (String c EmptyString, r) => Some (Py.code c - 48, r)
  | (String c d, r) =>
      if Py.code c =? 48 then None else Some (Py.decimal_value 0 (String c d), r)
  end.

Definition expect (w : string) (v : value) (s : string) : option (value * string) :=
  if String.prefix w s
  then Some (v, String.substring (String.length w) (String.length s - String.length w) s)
  else None.

(** [d[k] = v] on a dict under construction. *)
Fixpoint dict_set (k : string) (v : value) (d : list (string * value))
  : list (string * value) :=
  match d with
  | [] => [(k, v)]
  | (k', v') :: t =>
      if String.eqb k' k then (k', v) :: t else (k', v') :: dict_set k v t
  end.

Definition after_item {A : Type} (close : ascii) (s : string)
  (more : string -> option (A * string)) (done : string -> option (A * string))
  : option (A * string) :=
  match skip_ws s with
  | String c t =>
      if Py.code c =? 44 then more (skip_ws t)
      else if Ascii.eqb c close then done t
      else None
  | EmptyString => None
  end.

(** Recursive descent; [fuel] bounds the number of nested calls. *)
Fixpoint read_value (fuel : nat) (s : string) : option (value * string) :=
  match fuel with
  | O => None
  | S fuel' =>
      match skip_ws s with
      | EmptyString => None
      | String c t =>
          let n := Py.code c in
          if Ascii.eqb c Val.dquote then
            match read_string t with
            | Some (x, r) => Some (VStr x, r)
            | None => None
            end
          else if n =? 91 then
            match skip_ws t with
            | String c' t' =>
                if Py.code c' =? 93 then Some (VList [], t')
                else match read_items fuel' (String c' t') with
                     | Some (l, r) => Some (VList l, r)
                     | None => None
                     end
            | EmptyString => None
            end
          else if n =? 123 then
            match skip_ws t with
            | String c' t' =>
                if Py.code c' =? 125 then Some (VDict [], t')
                else match read_members fuel' [] (String c' t') with
                     | Some (d, r) => Some (VDict d, r)
                     | None => None
                     end
            | EmptyString => None
            end
          else if n =? 45 then
            match read_nat t with
            | Some (z, r) => Some (VInt (- z), r)
            | None => None
            end
          else if Py.isdecimal c then
            match read_nat (String c t) with
            | Some (z, r) => Some (VInt z, r)
            | None => None
            end
          else if n =? 110 then expect "null" VNone (String c t)
          else if n =? 116 then expect "true" (VBool true) (String c t)
          else if n =? 102 then expect "false" (VBool false) (String c t)
          else None
      end
  end
with read_items (fuel : nat) (s : string) : option (list value * string) :=
  match fuel with
  | O => None
  | S fuel' =>
      match read_value fuel' s with
      | Some (v, r) =>
          after_item (Val.chr 93) r
            (fun r' => match read_items fuel' r' with
                       | Some (l, r'') => Some (v :: l, r'')
                       | None => None
                       end)
            (fun r' => Some ([v], r'))
      | None => None
      end
  end
with read_members (fuel : nat) (acc : list (string * value)) (s : string)
  : option (list (string * value) * string) :=
  match fuel with
  | O => None
  | S fuel' =>
      match s with
      | String q t =>
          if Ascii.eqb q Val.dquote then
            match read_string t with
            | Some (k, r) =>
                match skip_ws r with
                | String c r' =>
                    if Py.code c =? 58 then
                      match read_value fuel' r' with
                      | Some (v, r'') =>
                          let acc' := dict_set k v acc in
                          after_item (Val.chr 125) r''
                            (fun x => read_members fuel' acc' x)
                            (fun x => Some (acc', x))
                      | None => None
                      end
                    else None
                | EmptyString => None
                end
            | None => None
            end
          else None
      | EmptyString => None
      end
  end.

(** [json.loads(s)]: one value, and only whitespace after it. *)
Definition loads (s : string) : option value :=
  match read_value (S (String.length s)) s with
  | Some (v, r) =>
      match skip_ws r with
      | EmptyString => Some v
      | _ => None
      end
  | None => None
  end.

Definition escape_char (c : ascii) : string :=
  let n := Py.code c in
  if Ascii.eqb c Val.dquote || Ascii.eqb c Val.backslash
  then String Val.backslash (String c "")
  else if n =? 10 then String Val.backslash "n"
  else if n =? 13 then String Val.backslash "r"
  else if n =? 9 then String Val.backslash "t"
  else if n =? 8 then String Val.backslash "b"
  else if n =? 12 then String Val.backslash "f"
  else if (n <? 32) || (126 <? n)
  then String Val.backslash
         ("u00" ++ String (Val.hex_digit (n / 16)) (String (Val.hex_digit (n mod 16)) ""))
  else String c "".

Fixpoint escape (s : string) : string :=
  match s with
  | EmptyString => EmptyString
  | String c t => escape_char c ++ escape t
  end.

Definition dumps_str (s : string) : string :=
  String Val.dquote (escape s ++ String Val.dquote "").

(** [json.dumps(v)] with its default separators. *)
Fixpoint dumps (v : value) : string :=
  match v with
  | VNone => "null"
  | VBool true => "true"
  | VBool false => "false"
  | VInt z => Val.str_int z
  | VStr s => dumps_str s
  | VList l => "[" ++ Val.join ", " (List.map dumps l) ++ "]"
  | VDict d =>
      "{" ++ Val.join ", " (List.map (fun kv => dumps_str (fst kv) ++ ": " ++ dumps (snd kv)) d)
          ++ "}"
  end.

End Json.

(** ** The score rules of [app.py] *)

(** [int(''.join(filter(str.isdigit, score_text.split()[0])))], the
    expression that [process_ats_results], [display_score_card] and
    [generate_pdf_report] all evaluate on the text of a score. *)
Definition score_number (score_text : string) : result Z :=
  token <- Py.item0 (Py.split score_text) ;;
  Py.int (Py.filter Py.isdigit token).

(** [int(...) if score != "N/A" else 0] *)
Definition score_or_zero (score : value) : result Z :=
  if Val.ne_str score "N/A" then score_number (Val.str score) else Ok 0.

(** [match_color] and [ats_color] of [display_score_card]. *)
Definition match_color (match_num : Z) : string :=
  if 70 <=? match_num then "green"
  else if 50 <=? match_num then "orange" else "red".

Definition ats_color (ats_num : Z) : string :=
  if 80 <=? ats_num then "green"
  else if 60 <=? ats_num then "orange" else "red".

(** One [st.metric] of the score card: the number, the text shown for it
    and the colour computed next to it. *)
Record metric : Type := Metric {
  metric_num : Z;
  metric_value : string;
  metric_color : string
}.

(** [f'{n}%'] *)
Definition percent (n : Z) : string := Val.str_int n ++ "%".

(** [display_score_card(match_score, ats_score)]: the two metrics, the job
    match first. *)
Definition display_score_card (match_score ats_score : value)
  : result (metric * metric) :=
  match_num <- score_or_zero match_score ;;
  let col1 := Metric match_num (percent match_num) (match_color match_num) in
  ats_num <- score_or_zero ats_score ;;
  let col2 := Metric ats_num (percent ats_num) (ats_color ats_num) in
  Ok (col1, col2).

(** The status column of the score table in [generate_pdf_report]. *)
Definition match_status (match_num : Z) : string :=
  if 70 <=? match_num then "Excellent"
  else if 50 <=? match_num then "Good" else "Needs Improvement".

Definition ats_status (ats_num : Z) : string :=
  if 80 <=? ats_num then "Excellent"
  else if 60 <=? ats_num then "Good" else "Needs Improvement".

(** [score_data] of [generate_pdf_report(results, action_plan)]: the rows
    of the score summary table. *)
Definition score_data (results : value) : result (list (list string)) :=
  match_score <- Val.get results "JD Match" (VStr "N/A") ;;
  ats_score <- Val.get results "ATSScore" (VStr "N/A") ;;
  match_num <- score_or_zero match_score ;;
  ats_num <- score_or_zero ats_score ;;
  Ok [ ["Metric"; "Score"; "Status"];
       ["Job Description Match"; percent match_num; match_status match_num];
       ["ATS Optimization Score"; percent ats_num; ats_status ats_num] ].

(** The names the specification gives the three colours. *)
Inductive classification : Type := good | medium | poor.

Definition classify (color : string) : option classification :=
  if String.eqb color "green" then Some good
  else if String.eqb color "orange" then Some medium
  else if String.eqb color "red" then Some poor
  else None.

(** ** The functions of [ats_analyser.py] *)

Fixpoint for_each {A : Type} (body : A -> result unit) (l : list A)
  : result unit :=
  match l with
  | [] => Ok tt
  | x :: t => _ <- body x ;; for_each body t
  end.

(** [prepare_prompt(resume_text, job_description)] on two texts. *)
Definition prepare_prompt (resume_text job_description : string)
  : result string :=
  if String.eqb resume_text "" || String.eqb job_description ""
  then Raise (ValueError "Resume text and job description cannot be empty")
  else Fmt.format prompt_template
         [("resume_text", Py.strip resume_text);
          ("job_description", Py.strip job_description)].

(** [r'\{.*\}'] *)
Definition json_pattern : Re.regex :=
  [Re.One (Re.Chr Fmt.lbrace); Re.Star Re.Dot; Re.One (Re.Chr Fmt.rbrace)].

Definition required_fields : list string :=
  ["JD Match"; "MissingKeywords"; "Profile Summary";
   "SkillsAlignment"; "ExperienceMatch"; "Recommendations"; "ATSScore"].

(** The body of the loop over the two score fields in
    [process_ats_results]. *)
Definition check_score (data : value) (score_field : string) : result unit :=
  present <- Val.contains data score_field ;;
  if present then
    v <- Val.getitem data score_field ;;
    let score_text := Val.str v in
    score_value <- score_number score_text ;;
    if negb ((0 <=? score_value) && (score_value <=? 100))
    then Raise (ValueError (score_field ++ " must be between 0-100"))
    else Ok tt
  else Ok tt.

Definition check_scores (data : value) : result unit :=
  for_each (check_score data) ["JD Match"; "ATSScore"].

Definition loc : Type := nat.

Section Analyser.

(** [json.loads]; [None] is its [JSONDecodeError]. *)
Variable json_loads : string -> option value.

(** [model.generate_content(prompt)] followed by [response.text]; the empty
    text stands for a response without text. *)
Variable generate_content : string -> result string.

Definition loads (s : string) : result value :=
  match json_loads s with
  | Some v => Ok v
  | None => Raise JSONDecodeError
  end.

(** [json.loads(x) if isinstance(x, str) else x] *)
Definition loads_if_str (x : value) : result value :=
  match x with
  | VStr s => loads s
  | _ => Ok x
  end.

(** [get_gemini_response(prompt)] *)
Definition get_gemini_response (prompt : string) : result string :=
  except_reraise "Error generating response"
    (text <- generate_content prompt ;;
     if String.eqb text ""
     then Raise (Exception "Empty response received from Gemini")
     else
       match json_loads text with
       | Some response_json =>
           _ <- for_each
                  (fun field =>
                     present <- Val.contains response_json field ;;
                     if negb present
                     then Raise (ValueError ("Missing required field: " ++ field))
                     else Ok tt)
                  required_fields ;;
           Ok text
       | None =>
           match Re.search true json_pattern text with
           | Some group => Ok group
           | None => Raise (Exception "Could not extract valid JSON response")
           end
       end).

(** [process_ats_results(response_json)] *)
Definition process_ats_results (response_json : value) : result value :=
  except_reraise "Error processing ATS results"
    (data <- loads_if_str response_json ;;
     _ <- check_scores data ;;
     Ok data).

(** [process_ats_results] with the identity of objects made explicit: the
    argument and the result are addresses in a heap of objects, and
    [json.loads] allocates the object it builds. *)
Definition process_ats_results_at (h : list value) (arg : loc)
  : result (loc * list value) :=
  except_reraise "Error processing ATS results"
    (match nth_error h arg with
     | None => Raise (Exception "dangling reference")
     | Some x =>
         st <- match x with
               | VStr s => d <- loads s ;; Ok (List.length h, (h ++ [d])%list, d)
               | _ => Ok (arg, h, x)
               end ;;
         let '(ref, h', data) := st in
         _ <- check_scores data ;;
         Ok (ref, h')
     end).

(** [generate_action_plan(ats_results)] *)
Definition generate_action_plan (ats_results : value) : result value :=
  except_reraise "Error generating action plan"
    (data <- loads_if_str ats_results ;;
     r1 <- Val.get data "Recommendations" (VDict []) ;;
     immediate_actions <- Val.get r1 "HighPriority" (VList []) ;;
     r2 <- Val.get data "Recommendations" (VDict []) ;;
     keyword_integration <- Val.get r2 "KeywordOptimization" (VList []) ;;
     missing_keywords <- Val.get data "MissingKeywords" (VList []) ;;
     sa <- Val.get data "SkillsAlignment" (VDict []) ;;
     skill_gaps <- Val.get sa "GapAnalysis" (VStr "") ;;
     red_flags_to_fix <- Val.get data "RedFlags" (VList []) ;;
     competitive_edge <- Val.get data "CompetitiveAdvantage" (VStr "") ;;
     Ok (VDict [("immediate_actions", immediate_actions);
                ("keyword_integration", keyword_integration);
                ("missing_keywords", missing_keywords);
                ("skill_gaps", skill_gaps);
                ("red_flags_to_fix", red_flags_to_fix);
                ("competitive_edge", competitive_edge)])).

End Analyser.

(** ** Auxiliary notions used in the statements *)

Definition nonspace (c : ascii) : bool := negb (Py.isspace c).
Definition nondigit (c : ascii) : bool := negb (Py.isdigit c).

(** A token ends where the text ends or whitespace follows. *)
Definition token_end (rest : string) : bool :=
  match rest with
  | EmptyString => true
  | String c _ => Py.isspace c
  end.

(** The range that [process_ats_results] accepts. *)
Definition in_range (n : Z) : bool := (0 <=? n) && (n <=? 100).

Definition is_dict (v : value) : bool :=
  match v with
  | VDict _ => true
  | _ => false
  end.

(** A field that is absent or holds a mapping. *)
Definition dict_or_absent (k : string) (d : list (string * value)) : bool :=
  match Val.lookup k d with
  | None => true
  | Some v => is_dict v
  end.

(** The projections of the specification's ActionPlan: a field of the
    mapping, or of a record inside it, with a default when the field or the
    record is absent. *)
Definition field_or (d : list (string * value)) (k : string) (default : value)
  : value :=
  match Val.lookup k d with
  | Some v => v
  | None => default
  end.

Definition nested_field_or (d : list (string * value)) (parent k : string)
  (default : value) : value :=
  match Val.lookup parent d with
  | Some (VDict r) => field_or r k default
  | _ => default
  end.

Definition plan_field (plan : result value) (k : string) : option value :=
  match plan with
  | Ok (VDict p) => Val.lookup k p
  | _ => None
  end.

(** The part of a text from its first [q] on. *)
Fixpoint from_first (q : ascii) (s : string) : option string :=
  match s with
  | EmptyString => None
  | String c t => if Ascii.eqb c q then Some s else from_first q t
  end.

(** The part of a text up to its last [q], and the part after it. *)
Fixpoint upto_last (q : ascii) (s : string) : option string :=
  match s with
  | EmptyString => None
  | String c t =>
      match upto_last q t with
      | Some u => Some (String c u)
      | None => if Ascii.eqb c q then Some (String c EmptyString) else None
      end
  end.

Fixpoint after_last (q : ascii) (s : string) : option string :=
  match s with
  | EmptyString => None
  | String c t =>
      match after_last q t with
      | Some r => Some r
      | None => if Ascii.eqb c q then Some t else None
      end
  end.

(** The specification's region of recovery: from the first opening brace
    of the text to the last closing brace after it. *)
Definition brace_region (text : string) : option string :=
  match from_first Fmt.lbrace text with
  | Some (String b t) =>
      match upto_last Fmt.rbrace t with
      | Some u => Some (String b u)
      | None => None
      end
  | _ => None
  end.

Definition no_brace (s : string) : bool :=
  Py.forallb (fun c => negb (Ascii.eqb c Fmt.lbrace || Ascii.eqb c Fmt.rbrace)) s.

(** ** Sample inputs *)



Definition sample_result : list (string * value) :=
  [("JD Match", VStr "45% - weak alignment");
   ("ATSScore", VInt 82);
   ("MissingKeywords", VList [VStr "Kubernetes"; VStr "Terraform"]);
   ("SkillsAlignment", VDict [("GapAnalysis", VStr "No cloud experience")]);
   ("Recommendations", VDict [("HighPriority", VList [VStr "Add metrics"])]);
   ("CompetitiveAdvantage", VStr "Open-source work")].

(** ** The rest of the pipeline: [extract_pdf_text] and the caller in [app.py] *)

(** [bool(v)], the test of [if v:] *)
Definition truthy (v : value) : bool :=
  match v with
  | VNone => false
  | VBool b => b
  | VInt z => negb (z =? 0)
  | VStr s => negb (String.eqb s "")
  | VList l => match l with [] => false | _ => true end
  | VDict d => match d with [] => false | _ => true end
  end.

(** An uploaded document as PyPDF2 presents it: [pdf.PdfReader(uploaded_file)]
    raises or gives the pages, and [page.extract_text()] raises or gives the
    text of a page. *)
Definition pdf_file : Type := result (list (result string)).

(** The loop of [extract_pdf_text] over the pages: the texts that are not
    empty, in page order. *)
Fixpoint page_texts (pages : list (result string)) : result (list string) :=
  match pages with
  | [] => Ok []
  | page :: rest =>
      page_text <- page ;;
      text <- page_texts rest ;;
      Ok (if String.eqb page_text "" then text else page_text :: text)
  end.

(** [extract_pdf_text(uploaded_file)] *)
Definition extract_pdf_text (uploaded_file : pdf_file) : result string :=
  except_reraise "Error extracting PDF text"
    (pages <- uploaded_file ;;
     match pages with
     | [] => Raise (Exception "PDF file is empty")
     | _ =>
         text <- page_texts pages ;;
         match text with
         | [] => Raise (Exception "No text could be extracted from the PDF")
         | _ => Ok (Val.join " " text)
         end
     end).

(** [st.session_state]: the entries by name, in insertion order. *)
Definition session : Type := list (string * value).

Definition has_key (k : string) (d : list (string * value)) : bool :=
  match Val.lookup k d with
  | Some _ => true
  | None => false
  end.

(** [st.session_state.k = v] *)
Definition session_set (k : string) (v : value) (st : session) : session :=
  Json.dict_set k v st.

(** [init_session_state()] *)
Definition init_session_state (st : session) : session :=
  let st1 := if has_key "processing" st then st
             else session_set "processing" (VBool false) st in
  let st2 := if has_key "analysis_results" st1 then st1
             else session_set "analysis_results" VNone st1 in
  if has_key "show_detailed_view" st2 then st2
  else session_set "show_detailed_view" (VBool false) st2.

(** [if st.session_state.analysis_results:], the test under which [main]
    renders the results (and, negated, the two inputs). *)
Definition results_shown (st : session) : result bool :=
  match Val.lookup "analysis_results" st with
  | Some v => Ok (truthy v)
  | None => Raise AttributeError
  end.

(** How a press of the analyse button ends. *)
Inductive outcome : Type :=
| NoJobDescription          (* the warning for a blank job description *)
| NoResume                  (* the warning for a missing upload *)
| AnalysisFailed (e : exn)  (* the error message of the handler *)
| Stored.                   (* the result is stored and the script reruns *)

Section Pipeline.

Variable json_loads : string -> option value.
Variable generate_content : string -> result string.

(** The four calls in the [try] block of [main]. *)
Definition run_analysis (uploaded_file : pdf_file) (jd : string)
  : result value :=
  resume_text <- extract_pdf_text uploaded_file ;;
  input_prompt <- prepare_prompt resume_text jd ;;
  response <- get_gemini_response json_loads generate_content input_prompt ;;
  process_ats_results json_loads (VStr response).

(** The handler of the analyse button in [main], on the job description
    typed, the upload (if any) and the session state; [st.rerun()] ends the
    run after the [finally] clause. *)
Definition analyze (jd : string) (uploaded_file : option pdf_file)
  (st : session) : outcome * session :=
  if String.eqb (Py.strip jd) "" then (NoJobDescription, st)
  else
    match uploaded_file with
    | None => (NoResume, st)
    | Some file =>
        let st1 := session_set "processing" (VBool true) st in
        match run_analysis file jd with
        | Ok response_json =>
            let st2 := session_set "analysis_results" response_json st1 in
            (Stored, session_set "processing" (VBool false) st2)
        | Raise e =>
            (AnalysisFailed e, session_set "processing" (VBool false) st1)
        end
    end.

End Pipeline.

(** *** Notions used in the statements about these *)

Definition nonempty_text (s : string) : bool := negb (String.eqb s "").

(** The first of the required fields that a mapping lacks. *)
Definition first_missing (d : list (string * value)) : option string :=
  List.find (fun field => negb (has_key field d)) required_fields.

(** A score field passes when it is absent or reads a number in range. *)
Definition score_passes (d : list (string * value)) (f : string) : bool :=
  match Val.lookup f d with
  | None => true
  | Some v =>
      match score_number (Val.str v) with
      | Ok n => in_range n
      | Raise _ => false
      end
  end.

Definition sample_pdf : pdf_file :=
  Ok [Ok "Jane Doe"; Ok ""; Ok "Proof engineer, 10 years"].

Definition sample_full_result : list (string * value) :=
  [("JD Match", VStr "72% - solid match");
   ("ATSScore", VInt 64);
   ("MissingKeywords", VList [VStr "Kubernetes"]);
   ("SkillsAlignment", VDict [("GapAnalysis", VStr "No cloud experience")]);
   ("ExperienceMatch", VDict [("LevelAlignment", VStr "senior")]);
   ("Profile Summary", VStr "Strong profile");
   ("Recommendations", VDict [("HighPriority", VList [VStr "Add metrics"])])].

Definition sample_session : session :=
  [("processing", VBool false); ("analysis_results", VNone);
   ("show_detailed_view", VBool false)].

(** ** Text lemmas *)

Lemma filter_app (p : ascii -> bool) (a b : string) :
  Py.filter p (a ++ b) = Py.filter p a ++ Py.filter p b.
Proof.
  induction a as [|c a IH]; simpl; [reflexivity|].
  destruct (p c); simpl; now rewrite IH.
Qed.

Lemma filter_all (p : ascii -> bool) (a : string) :
  Py.forallb p a = true -> Py.filter p a = a.
Proof.
  induction a as [|c a IH]; simpl; [reflexivity|].
  intros H. apply andb_true_iff in H as [Hc Ha].
  now rewrite Hc, IH.
Qed.

Lemma filter_none (p : ascii -> bool) (a : string) :
  Py.forallb (fun c => negb (p c)) a = true -> Py.filter p a = "".
Proof.
  induction a as [|c a IH]; simpl; [reflexivity|].
  intros H. apply andb_true_iff in H as [Hc Ha].
  apply negb_true_iff in Hc. now rewrite Hc, IH.
Qed.

Lemma app_empty_r (a : string) : a ++ "" = a.
Proof. induction a as [|c a IH]; simpl; [reflexivity | now rewrite IH]. Qed.


(** The digits of a token made of a digit run and non-digits after it. *)
Lemma filter_digit_run (d r : string) :
  Py.forallb Py.isdigit d = true ->
  Py.forallb nondigit r = true ->
  Py.filter Py.isdigit (d ++ r) = d.
Proof.
  intros Hd Hr.
  rewrite filter_app, (filter_all _ _ Hd), (filter_none _ _ Hr).
  apply app_empty_r.
Qed.

Lemma runs_token (tok s : string) :
  Py.forallb nonspace tok = true ->
  Py.runs (tok ++ s) = (tok ++ fst (Py.runs s), snd (Py.runs s)).
Proof.
  induction tok as [|c tok IH]; simpl; intros H.
  - now destruct (Py.runs s).
  - apply andb_true_iff in H as [Hc Ht].
    rewrite (IH Ht). unfold nonspace in Hc.
    apply negb_true_iff in Hc. now rewrite Hc.
Qed.

Lemma runs_token_end (rest : string) :
  token_end rest = true -> fst (Py.runs rest) = "".
Proof.
  destruct rest as [|c t]; simpl; [reflexivity|].
  intros H. rewrite H. now destruct (Py.runs t).
Qed.

Lemma split_token (tok rest : string) :
  tok <> "" ->
  Py.forallb nonspace tok = true ->
  token_end rest = true ->
  Py.split (tok ++ rest) = tok :: snd (Py.runs rest).
Proof.
  intros Hne Htok Hend. unfold Py.split.
  rewrite (runs_token _ _ Htok), (runs_token_end _ Hend), app_empty_r.
  destruct tok; [congruence | reflexivity].
Qed.

Lemma split_leading_space (ws s : string) :
  Py.forallb Py.isspace ws = true -> Py.split (ws ++ s) = Py.split s.
Proof.
  induction ws as [|c ws IH]; simpl; intros H; [reflexivity|].
  apply andb_true_iff in H as [Hc Hw].
  specialize (IH Hw). unfold Py.split in *. simpl.
  destruct (Py.runs (ws ++ s)) as [w l]. now rewrite Hc.
Qed.

(** The first token of a text: leading whitespace is skipped, and the token
    runs to the next whitespace or to the end. *)
Lemma first_token (ws tok rest : string) :
  Py.forallb Py.isspace ws = true ->
  tok <> "" ->
  Py.forallb nonspace tok = true ->
  token_end rest = true ->
  Py.item0 (Py.split (ws ++ tok ++ rest)) = Ok tok.
Proof.
  intros Hws Hne Htok Hend.
  now rewrite (split_leading_space _ _ Hws), (split_token _ _ Hne Htok Hend).
Qed.

(** Every run that [split] returns is non-empty and free of whitespace. *)
Lemma runs_spec (s : string) :
  Py.forallb nonspace (fst (Py.runs s)) = true /\
  Forall (fun w => w <> "" /\ Py.forallb nonspace w = true) (snd (Py.runs s)).
Proof.
  induction s as [|c s [IHw IHl]]; simpl; [now split|].
  destruct (Py.runs s) as [w l]; simpl in *.
  destruct (Py.isspace c) eqn:Hc; simpl.
  - split; [reflexivity|].
    destruct w; simpl; [assumption|].
    constructor; [split; [discriminate | assumption] | assumption].
  - split; [|assumption]. unfold nonspace at 1. now rewrite Hc.
Qed.

(** A text without digits has none in its tokens either. *)
Lemma runs_nondigit (s : string) :
  Py.forallb nondigit s = true ->
  Py.forallb nondigit (fst (Py.runs s)) = true /\
  Forall (fun w => Py.forallb nondigit w = true) (snd (Py.runs s)).
Proof.
  induction s as [|c s IH]; simpl; [now split|].
  intros H. apply andb_true_iff in H as [Hc Hs].
  destruct (IH Hs) as [IHw IHl].
  destruct (Py.runs s) as [w l]; simpl in *.
  destruct (Py.isspace c); simpl.
  - split; [reflexivity|].
    destruct w; simpl; [assumption|]. now constructor.
  - split; [now rewrite Hc | assumption].
Qed.

Lemma score_number_nondigit (s : string) :
  Py.forallb nondigit s = true -> succeeds (score_number s) = false.
Proof.
  intros H. destruct (runs_nondigit s H) as [Hw Hl].
  unfold score_number, Py.split.
  destruct (Py.runs s) as [w l]; simpl in *.
  destruct w as [|c w].
  - destruct l as [|x l]; simpl; [reflexivity|].
    inversion Hl as [|? ? Hx _]; subst.
    now rewrite (filter_none Py.isdigit x Hx).
  - change (succeeds (Py.int (Py.filter Py.isdigit (String c w))) = false).
    now rewrite (filter_none Py.isdigit (String c w) Hw).
Qed.

Lemma int_decimal_run (d : string) :
  d <> "" ->
  Py.forallb Py.isdecimal d = true ->
  (String.length d <= Py.max_str_digits)%nat ->
  Py.int d = Ok (Py.decimal_value 0 d).
Proof.
  intros Hne Hd Hlen. unfold Py.int.
  destruct d; [congruence|].
  rewrite Hd. apply Nat.leb_le in Hlen. now rewrite Hlen.
Qed.

Lemma score_number_first_token (ws tok rest : string) :
  Py.forallb Py.isspace ws = true ->
  tok <> "" ->
  Py.forallb nonspace tok = true ->
  token_end rest = true ->
  score_number (ws ++ tok ++ rest) = Py.int (Py.filter Py.isdigit tok).
Proof.
  intros Hws Hne Htok Hend. unfold score_number.
  now rewrite (first_token _ _ _ Hws Hne Htok Hend).
Qed.

Lemma lookup_contains (d : list (string * value)) (f : string) (v : value) :
  Val.lookup f d = Some v ->
  Val.contains (VDict d) f = Ok true /\ Val.getitem (VDict d) f = Ok v.
Proof. intros H. simpl. now rewrite H. Qed.

Lemma lookup_absent (d : list (string * value)) (f : string) :
  Val.lookup f d = None -> Val.contains (VDict d) f = Ok false.
Proof. intros H. simpl. now rewrite H. Qed.

(** What the check of one present score field amounts to. *)
Lemma check_score_present (d : list (string * value)) (f : string) (v : value) :
  Val.lookup f d = Some v ->
  check_score (VDict d) f =
    (n <- score_number (Val.str v) ;;
     if in_range n then Ok tt
     else Raise (ValueError (f ++ " must be between 0-100"))).
Proof.
  intros H. unfold check_score.
  destruct (lookup_contains d f v H) as [Hc Hg].
  rewrite Hc, Hg. simpl.
  destruct (score_number (Val.str v)) as [n|e]; simpl; [|reflexivity].
  unfold in_range. now destruct ((0 <=? n) && (n <=? 100)).
Qed.

Lemma check_score_absent (d : list (string * value)) (f : string) :
  Val.lookup f d = None -> check_score (VDict d) f = Ok tt.
Proof.
  intros H. unfold check_score. now rewrite (lookup_absent d f H).
Qed.

(** A value the validator accepts is not the sentinel, so the guard of the
    display leaves its number alone. *)
Lemma score_or_zero_validated (v : value) (n : Z) :
  score_number (Val.str v) = Ok n -> score_or_zero v = Ok n.
Proof.
  intros H. unfold score_or_zero, Val.ne_str.
  destruct (Val.is_str "N/A" v) eqn:E; simpl; [|assumption].
  destruct v; simpl in E; try discriminate.
  apply String.eqb_eq in E. subst s. simpl in H. discriminate.
Qed.

Lemma check_score_ok (d : list (string * value)) (f : string) (v : value) :
  Val.lookup f d = Some v ->
  check_score (VDict d) f = Ok tt ->
  exists n, score_number (Val.str v) = Ok n /\ in_range n = true.
Proof.
  intros Hl Hc. rewrite (check_score_present d f v Hl) in Hc.
  destruct (score_number (Val.str v)) as [n|e]; simpl in Hc; [|discriminate].
  exists n. split; [reflexivity|].
  now destruct (in_range n).
Qed.

Lemma decimal_value_nonneg (s : string) :
  forall acc : Z,
    0 <= acc -> Py.forallb Py.isdecimal s = true -> 0 <= Py.decimal_value acc s.
Proof.
  induction s as [|c s IH]; intros acc Hacc H; [assumption|].
  cbn [Py.forallb] in H. apply andb_true_iff in H as [Hc Hs].
  cbn [Py.decimal_value]. apply IH; [|assumption].
  unfold Py.isdecimal in Hc. apply andb_true_iff in Hc as [Hlo _].
  apply Z.leb_le in Hlo. lia.
Qed.

Lemma int_nonneg (s : string) (n : Z) : Py.int s = Ok n -> 0 <= n.
Proof.
  unfold Py.int. destruct s as [|c s]; [discriminate|].
  destruct (Py.forallb Py.isdecimal (String c s)) eqn:Hd;
    [|cbn [andb]; discriminate].
  destruct (Nat.leb _ _); cbn [andb]; [|discriminate].
  intros H. injection H as <-. apply (decimal_value_nonneg (String c s) 0); [lia | exact Hd].
Qed.

Lemma score_number_nonneg (s : string) (n : Z) :
  score_number s = Ok n -> 0 <= n.
Proof.
  unfold score_number.
  destruct (Py.item0 (Py.split s)) as [tok|e]; simpl; [|discriminate].
  apply int_nonneg.
Qed.

(** *** The recovery pattern *)

Lemma after_last_length (q : ascii) (s rest : string) :
  after_last q s = Some rest -> (String.length rest < String.length s)%nat.
Proof.
  revert rest. induction s as [|c s IH]; simpl; intros rest H; [discriminate|].
  destruct (after_last q s) as [r|].
  - injection H as <-. specialize (IH r eq_refl). lia.
  - destruct (Ascii.eqb c q); [|discriminate].
    injection H as <-. lia.
Qed.

(** The part up to the last [q] is the text without what follows it. *)
Lemma upto_last_take (q : ascii) (s : string) :
  upto_last q s =
    match after_last q s with
    | Some rest => Some (Re.take (String.length s - String.length rest) s)
    | None => None
    end.
Proof.
  induction s as [|c s IH]; [reflexivity|].
  cbn [upto_last after_last]. rewrite IH.
  destruct (after_last q s) as [r|] eqn:E.
  - apply after_last_length in E.
    replace (String.length (String c s) - String.length r)%nat
      with (S (String.length s - String.length r)) by (cbn [String.length]; lia).
    reflexivity.
  - destruct (Ascii.eqb c q); [|reflexivity].
    replace (String.length (String c s) - String.length s)%nat
      with 1%nat by (cbn [String.length]; lia).
    reflexivity.
Qed.

(** The greedy [.*] before a closing brace runs to the last one. *)
Lemma star_dot_rbrace (s : string) :
  Re.star (Re.accepts true Re.Dot)
    (Re.match_here true [Re.One (Re.Chr Fmt.rbrace)]) s =
  after_last Fmt.rbrace s.
Proof.
  induction s as [|c s IH]; [reflexivity|].
  cbn [Re.star after_last]. rewrite IH.
  change (Re.accepts true Re.Dot c) with true. cbv iota.
  destruct (after_last Fmt.rbrace s); reflexivity.
Qed.

Lemma match_json_pattern (s : string) :
  Re.match_here true json_pattern s =
    match s with
    | EmptyString => None
    | String c t =>
        if Ascii.eqb c Fmt.lbrace then after_last Fmt.rbrace t else None
    end.
Proof.
  destruct s as [|c t]; [reflexivity|].
  unfold json_pattern. cbn [Re.match_here Re.accepts].
  now rewrite star_dot_rbrace.
Qed.

Lemma search_no_rbrace (s : string) :
  after_last Fmt.rbrace s = None -> Re.search true json_pattern s = None.
Proof.
  induction s as [|c s IH]; intros H.
  - reflexivity.
  - cbn [after_last] in H.
    destruct (after_last Fmt.rbrace s) as [r|] eqn:E; [discriminate|].
    cbn [Re.search]. rewrite match_json_pattern, E.
    destruct (Ascii.eqb c Fmt.lbrace); now apply IH.
Qed.

(** [re.search] with the recovery pattern finds the specification's
    region. *)
Lemma search_brace_region (s : string) :
  Re.search true json_pattern s = brace_region s.
Proof.
  induction s as [|c s IH]; [reflexivity|].
  cbn [Re.search]. rewrite match_json_pattern.
  unfold brace_region. cbn [from_first].
  destruct (Ascii.eqb c Fmt.lbrace) eqn:Ec.
  - rewrite upto_last_take.
    destruct (after_last Fmt.rbrace s) as [r|] eqn:E.
    + apply after_last_length in E.
      replace (String.length (String c s) - String.length r)%nat
        with (S (String.length s - String.length r)) by (cbn [String.length]; lia).
      reflexivity.
    + now apply search_no_rbrace.
  - exact IH.
Qed.



(** *** The prompt template *)

Lemma go_literal (env : list (string * string)) (l s : string) :
  no_brace l = true ->
  Fmt.go env None (l ++ s) = (r <- Fmt.go env None s ;; Ok (l ++ r)).
Proof.
  induction l as [|c l IH]; intros H.
  - simpl. now destruct (Fmt.go env None s).
  - unfold no_brace in H. cbn [Py.forallb] in H.
    apply andb_true_iff in H as [Hc Hl].
    apply negb_true_iff, orb_false_iff in Hc as [Hlb Hrb].
    cbn [append Fmt.go]. rewrite Hlb, Hrb, (IH Hl).
    now destruct (Fmt.go env None s).
Qed.

Lemma go_resume_text (env : list (string * string)) (s : string) :
  Fmt.go env None ("{resume_text}" ++ s) =
    match Fmt.lookup "resume_text" env with
    | Some v => r <- Fmt.go env None s ;; Ok (v ++ r)
    | None => Raise KeyError
    end.
Proof. reflexivity. Qed.

Lemma go_job_description (env : list (string * string)) (s : string) :
  Fmt.go env None ("{job_description}" ++ s) =
    match Fmt.lookup "job_description" env with
    | Some v => r <- Fmt.go env None s ;; Ok (v ++ r)
    | None => Raise KeyError
    end.
Proof. reflexivity. Qed.

Lemma format_two_fields (h m t t' x y : string) :
  no_brace h = true ->
  no_brace m = true ->
  (forall env, Fmt.go env None t = Ok t') ->
  Fmt.format (h ++ "{resume_text}" ++ m ++ "{job_description}" ++ t)
    [("resume_text", x); ("job_description", y)] =
  Ok (h ++ x ++ m ++ y ++ t').
Proof.
  intros Hh Hm Ht. unfold Fmt.format.
  rewrite (go_literal _ _ _ Hh), go_resume_text.
  cbn [Fmt.lookup String.eqb Ascii.eqb Bool.eqb].
  rewrite (go_literal _ _ _ Hm), go_job_description.
  cbn [Fmt.lookup String.eqb Ascii.eqb Bool.eqb].
  now rewrite Ht.
Qed.

Lemma template_tail_formatted (env : list (string * string)) :
  Fmt.go env None template_tail = Ok prompt_tail.
Proof. vm_compute. reflexivity. Qed.

Lemma strip_whitespace (s : string) :
  Py.forallb Py.isspace s = true -> Py.strip s = "".
Proof.
  unfold Py.strip. induction s as [|c s IH]; simpl; intros H; [reflexivity|].
  apply andb_true_iff in H as [Hc Hs]. rewrite Hc. now apply IH.
Qed.

(** *** What the score expression raises *)

Lemma split_all_space (s : string) :
  Py.forallb Py.isspace s = true -> Py.split s = [].
Proof.
  intros H. pose proof (split_leading_space s "" H) as E.
  now rewrite app_empty_r in E.
Qed.

Lemma split_nil_space (s : string) :
  Py.split s = [] -> Py.forallb Py.isspace s = true.
Proof.
  induction s as [|c s IH]; [reflexivity|].
  unfold Py.split in *. cbn [Py.runs Py.forallb].
  destruct (Py.runs s) as [w l]. destruct (Py.isspace c).
  - cbn [Py.push_run andb]. exact IH.
  - destruct w; discriminate.
Qed.

Lemma int_raises (s : string) (e : exn) :
  Py.int s = Raise e -> e = IntValueError.
Proof.
  unfold Py.int. destruct s as [|c s]; [now intros [= <-]|].
  destruct (Py.forallb Py.isdecimal (String c s)
            && Nat.leb (String.length (String c s)) Py.max_str_digits);
    [discriminate | now intros [= <-]].
Qed.

(** The score expression raises an IndexError on a text without a token and
    the ValueError of [int] otherwise. *)
Lemma score_number_raises (s : string) (e : exn) :
  score_number s = Raise e ->
  (e = IndexError /\ Py.forallb Py.isspace s = true)
  \/ (e = IntValueError /\ Py.forallb Py.isspace s = false).
Proof.
  unfold score_number. destruct (Py.split s) as [|tok l] eqn:E; cbn [Py.item0 bind].
  - intros [= <-]. left. split; [reflexivity | now apply split_nil_space].
  - intros H. right. split; [exact (int_raises _ _ H)|].
    destruct (Py.forallb Py.isspace s) eqn:Hs; [|reflexivity].
    rewrite (split_all_space s Hs) in E. discriminate.
Qed.

Lemma score_number_nondigit_error (s : string) :
  Py.forallb nondigit s = true ->
  score_number s =
    Raise (if Py.forallb Py.isspace s then IndexError else IntValueError).
Proof.
  intros H. pose proof (score_number_nondigit s H) as Hf.
  destruct (score_number s) as [n|e] eqn:E; [discriminate|].
  destruct (score_number_raises s e E) as [[-> ->] | [-> ->]]; reflexivity.
Qed.

Lemma score_or_zero_off_sentinel (v : value) :
  Val.ne_str v "N/A" = true -> score_or_zero v = score_number (Val.str v).
Proof. unfold score_or_zero. now intros ->. Qed.

(** The text shown for a number in range reads back as that number. *)
Lemma percent_reads_back (n : Z) :
  in_range n = true -> score_number (percent n) = Ok n.
Proof.
  intros H. unfold in_range in H.
  apply andb_true_iff in H as [H0 H1]. apply Z.leb_le in H0, H1.
  assert (Hall : List.forallb
                   (fun k => match score_number (percent (Z.of_nat k)) with
                             | Ok m => m =? Z.of_nat k
                             | Raise _ => false
                             end)
                   (List.seq 0 101) = true) by (vm_compute; reflexivity).
  rewrite List.forallb_forall in Hall.
  specialize (Hall (Z.to_nat n)).
  rewrite Z2Nat.id in Hall by exact H0.
  assert (Hin : In (Z.to_nat n) (List.seq 0 101)) by (apply List.in_seq; lia).
  specialize (Hall Hin).
  destruct (score_number (percent n)) as [m|e]; [|discriminate].
  apply Z.eqb_eq in Hall. now subst m.
Qed.

Lemma check_score_shown (d : list (string * value)) (f : string) :
  check_score (VDict d) f = Ok tt ->
  exists n : Z,
    in_range n = true
    /\ score_or_zero (field_or d f (VStr "N/A")) = Ok n
    /\ (Val.lookup f d = None -> n = 0)
    /\ (forall v, Val.lookup f d = Some v -> score_number (Val.str v) = Ok n).
Proof.
  intros H. unfold field_or. destruct (Val.lookup f d) as [v|] eqn:E.
  - destruct (check_score_ok d f v E H) as (n & Hn & Hr).
    exists n. repeat split; try assumption.
    + now apply score_or_zero_validated.
    + discriminate.
    + intros v' Hv. now injection Hv as <-.
  - exists 0. repeat split; discriminate.
Qed.

Section Properties.

Variable json_loads : string -> option value.
Variable generate_content : string -> result string.

Lemma process_dict (d : list (string * value)) :
  process_ats_results json_loads (VDict d) =
    match check_scores (VDict d) with
    | Ok _ => Ok (VDict d)
    | Raise e => Raise (Reraised "Error processing ATS results" e)
    end.
Proof.
  unfold process_ats_results. simpl.
  now destruct (check_scores (VDict d)).
Qed.

Lemma check_scores_split (data : value) :
  check_scores data =
    (_ <- check_score data "JD Match" ;; check_score data "ATSScore").
Proof.
  unfold check_scores. simpl.
  destruct (check_score data "JD Match") as [[]|e]; simpl; [|reflexivity].
  now destruct (check_score data "ATSScore") as [[]|e].
Qed.

Lemma check_scores_ok (data : value) :
  check_scores data = Ok tt <->
  check_score data "JD Match" = Ok tt /\ check_score data "ATSScore" = Ok tt.
Proof.
  rewrite check_scores_split.
  destruct (check_score data "JD Match") as [[]|e]; simpl.
  - intuition.
  - split; [discriminate | intros [H _]; discriminate].
Qed.

(** C1 (as amended).  For a score text whose first token is a digit run [d]
    followed only by non-digits, the validator's check, the score card and
    the report all read [int(d)], which is the decimal value of [d] when [d]
    is made of decimal digits within the length limit of [int].  On the
    sentinel [N/A] the score card and the report read 0 and the validator
    fails.  On any other text without a digit nothing is read: the
    extraction raises at every call site, the IndexError of [split()[0]]
    when the text has no token (it is empty or all whitespace) and the
    ValueError of [int('')] otherwise; the validator re-raises it under its
    prefix, the score card and the report let it through. *)
Theorem score_extraction :
  (forall ws d r rest : string,
      Py.forallb Py.isspace ws = true ->
      d <> "" ->
      Py.forallb Py.isdigit d = true ->
      Py.forallb nondigit r = true ->
      Py.forallb nonspace (d ++ r) = true ->
      token_end rest = true ->
      let s := ws ++ (d ++ r) ++ rest in
      score_number s = Py.int d
      /\ score_or_zero (VStr s) = Py.int d
      /\ (forall f, check_score (VDict [(f, VStr s)]) f =
                    (n <- Py.int d ;;
                     if in_range n then Ok tt
                     else Raise (ValueError (f ++ " must be between 0-100"))))
      /\ (Py.forallb Py.isdecimal d = true ->
          (String.length d <= Py.max_str_digits)%nat ->
          score_number s = Ok (Py.decimal_value 0 d)))
  /\ (score_or_zero (VStr "N/A") = Ok 0
      /\ process_ats_results json_loads (VDict [("JD Match", VStr "N/A")]) =
           Raise (Reraised "Error processing ATS results" IntValueError))
  /\ (forall s : string,
         Py.forallb nondigit s = true ->
         succeeds (score_number s) = false
         /\ (s <> "N/A" -> succeeds (score_or_zero (VStr s)) = false)
         /\ exists e : exn,
             e = (if Py.forallb Py.isspace s then IndexError else IntValueError)
             /\ score_number s = Raise e
             /\ (forall f, check_score (VDict [(f, VStr s)]) f = Raise e)
             /\ process_ats_results json_loads (VDict [("JD Match", VStr s)]) =
                  Raise (Reraised "Error processing ATS results" e)
             /\ process_ats_results json_loads (VDict [("ATSScore", VStr s)]) =
                  Raise (Reraised "Error processing ATS results" e)
             /\ (s <> "N/A" ->
                 score_or_zero (VStr s) = Raise e
                 /\ (forall other, display_score_card (VStr s) other = Raise e)
                 /\ (forall d other,
                        Val.lookup "JD Match" d = Some (VStr s) ->
                        Val.lookup "ATSScore" d = Some other ->
                        score_data (VDict d) = Raise e))).
Proof.
  split; [|split].
  - intros ws d r rest Hws Hne Hd Hr Htok Hend s.
    assert (Hs : score_number s = Py.int d).
    { unfold s. rewrite score_number_first_token; try assumption.
      - now rewrite filter_digit_run.
      - destruct d; [congruence | discriminate]. }
    split; [exact Hs|]. split; [|split].
    + unfold score_or_zero, Val.ne_str. simpl.
      destruct (String.eqb s "N/A") eqn:E; simpl; [|exact Hs].
      apply String.eqb_eq in E. rewrite E in Hs. simpl in Hs.
      destruct d; [congruence|].
      unfold s in E. destruct ws as [|w ws]; simpl in E.
      * injection E as Ea _. simpl in Hd. rewrite Ea in Hd. discriminate.
      * injection E as Ea _. simpl in Hws. rewrite Ea in Hws. discriminate.
    + intros f. rewrite (check_score_present _ f (VStr s)).
      * simpl. now rewrite Hs.
      * simpl. now rewrite String.eqb_refl.
    + intros Hdec Hlen. rewrite Hs. now apply int_decimal_run.
  - split; [reflexivity|]. rewrite process_dict. reflexivity.
  - intros s Hs. split; [now apply score_number_nondigit|]. split.
    { intros Hna. unfold score_or_zero, Val.ne_str. simpl.
      apply String.eqb_neq in Hna. rewrite Hna. simpl.
      now apply score_number_nondigit. }
    pose proof (score_number_nondigit_error s Hs) as He.
    exists (if Py.forallb Py.isspace s then IndexError else IntValueError).
    split; [reflexivity|]. split; [exact He|].
    assert (Hf : forall f,
               check_score (VDict [(f, VStr s)]) f =
                 Raise (if Py.forallb Py.isspace s
                        then IndexError else IntValueError)).
    { intros f. rewrite (check_score_present _ f (VStr s)).
      - cbn [Val.str]. now rewrite He.
      - cbn [Val.lookup]. now rewrite String.eqb_refl. }
    split; [exact Hf|]. split; [|split].
    + rewrite process_dict, check_scores_split, Hf. reflexivity.
    + rewrite process_dict, check_scores_split.
      rewrite (check_score_absent [("ATSScore", VStr s)] "JD Match" eq_refl).
      cbn [bind]. now rewrite Hf.
    + intros Hna.
      assert (Hz : score_or_zero (VStr s) =
                     Raise (if Py.forallb Py.isspace s
                            then IndexError else IntValueError)).
      { rewrite score_or_zero_off_sentinel; [exact He|].
        unfold Val.ne_str, Val.is_str.
        apply String.eqb_neq in Hna. now rewrite Hna. }
      split; [exact Hz|]. split.
      * intros other. unfold display_score_card. now rewrite Hz.
      * intros d other H1 H2. unfold score_data. cbn [Val.get bind].
        rewrite H1, H2. cbn [bind]. now rewrite Hz.
Qed.

(** C10 (as amended).  The number read from a score text is [int] of all
    the digit characters of its first token, wherever they stand in it:
    [45.5%] gives 455 and [a4b5] gives 45.  The validator's check, the score
    card and the report evaluate this one expression on every score other
    than the sentinel [N/A], so off the sentinel they read the same number
    or raise the same exception; on the sentinel the score card and the
    report read 0 and the expression of the validator raises.  On a mapping
    that the validator accepts, the score card shows and the report prints,
    for each score field present, the number that was validated (and 0 for
    a field that is absent), as the decimal text of that number followed by
    a percent sign. *)
Theorem score_digits_everywhere :
  (forall ws tok rest : string,
      Py.forallb Py.isspace ws = true ->
      tok <> "" ->
      Py.forallb nonspace tok = true ->
      token_end rest = true ->
      score_number (ws ++ tok ++ rest) = Py.int (Py.filter Py.isdigit tok))
  /\ score_number "45.5%" = Ok 455
  /\ score_number "a4b5" = Ok 45
  /\ (forall (d : list (string * value)) (f : string) (v : value),
         Val.lookup f d = Some v ->
         check_score (VDict d) f =
           (n <- score_number (Val.str v) ;;
            if in_range n then Ok tt
            else Raise (ValueError (f ++ " must be between 0-100"))))
  /\ (forall v1 v2 : value,
         Val.ne_str v1 "N/A" = true ->
         Val.ne_str v2 "N/A" = true ->
         display_score_card v1 v2 =
           (n1 <- score_number (Val.str v1) ;;
            n2 <- score_number (Val.str v2) ;;
            Ok (Metric n1 (percent n1) (match_color n1),
                Metric n2 (percent n2) (ats_color n2))))
  /\ (forall (d : list (string * value)) (v1 v2 : value),
         Val.lookup "JD Match" d = Some v1 ->
         Val.lookup "ATSScore" d = Some v2 ->
         Val.ne_str v1 "N/A" = true ->
         Val.ne_str v2 "N/A" = true ->
         score_data (VDict d) =
           (n1 <- score_number (Val.str v1) ;;
            n2 <- score_number (Val.str v2) ;;
            Ok [ ["Metric"; "Score"; "Status"];
                 ["Job Description Match"; percent n1; match_status n1];
                 ["ATS Optimization Score"; percent n2; ats_status n2] ]))
  /\ (forall d : list (string * value),
         succeeds (process_ats_results json_loads (VDict d)) = true ->
         exists n1 n2 : Z,
           in_range n1 = true /\ in_range n2 = true
           /\ (forall v, Val.lookup "JD Match" d = Some v ->
                         score_number (Val.str v) = Ok n1)
           /\ (forall v, Val.lookup "ATSScore" d = Some v ->
                         score_number (Val.str v) = Ok n2)
           /\ (Val.lookup "JD Match" d = None -> n1 = 0)
           /\ (Val.lookup "ATSScore" d = None -> n2 = 0)
           /\ display_score_card (field_or d "JD Match" (VStr "N/A"))
                (field_or d "ATSScore" (VStr "N/A")) =
              Ok (Metric n1 (percent n1) (match_color n1),
                  Metric n2 (percent n2) (ats_color n2))
           /\ score_data (VDict d) =
                Ok [ ["Metric"; "Score"; "Status"];
                     ["Job Description Match"; percent n1; match_status n1];
                     ["ATS Optimization Score"; percent n2; ats_status n2] ]
           /\ score_number (percent n1) = Ok n1
           /\ score_number (percent n2) = Ok n2)
  /\ display_score_card (VStr "45.5%") (VStr "a4b5") =
       Ok (Metric 455 "455%" "green", Metric 45 "45%" "red")
  /\ score_data (VDict [("JD Match", VStr "45.5%"); ("ATSScore", VStr "a4b5")]) =
       Ok [ ["Metric"; "Score"; "Status"];
            ["Job Description Match"; "455%"; "Excellent"];
            ["ATS Optimization Score"; "45%"; "Needs Improvement"] ]
  /\ process_ats_results json_loads (VDict [("JD Match", VStr "45.5%")]) =
       Raise (Reraised "Error processing ATS results"
                (ValueError "JD Match must be between 0-100"))
  /\ process_ats_results json_loads (VDict [("ATSScore", VStr "a4b5")]) =
       Ok (VDict [("ATSScore", VStr "a4b5")])
  /\ score_number "N/A" = Raise IntValueError
  /\ score_or_zero (VStr "N/A") = Ok 0.
Proof.
  split; [exact score_number_first_token|].
  split; [reflexivity|]. split; [reflexivity|].
  split; [exact check_score_present|].
  split.
  { intros v1 v2 H1 H2. unfold display_score_card.
    rewrite (score_or_zero_off_sentinel v1 H1), (score_or_zero_off_sentinel v2 H2).
    destruct (score_number (Val.str v1)) as [n1|e1]; [|reflexivity].
    cbn [bind]. now destruct (score_number (Val.str v2)). }
  split.
  { intros d v1 v2 Hl1 Hl2 H1 H2. unfold score_data. cbn [Val.get bind].
    rewrite Hl1, Hl2. cbn [bind].
    now rewrite (score_or_zero_off_sentinel v1 H1),
      (score_or_zero_off_sentinel v2 H2). }
  split.
  { intros d Hok. rewrite process_dict in Hok.
    destruct (check_scores (VDict d)) as [[]|e] eqn:Hc; [|discriminate].
    apply check_scores_ok in Hc as [Hc1 Hc2].
    destruct (check_score_shown d _ Hc1) as (n1 & Hr1 & Hz1 & Ha1 & Hv1).
    destruct (check_score_shown d _ Hc2) as (n2 & Hr2 & Hz2 & Ha2 & Hv2).
    exists n1, n2.
    do 6 (split; [assumption|]). split; [|split; [|split]].
    - unfold display_score_card. now rewrite Hz1, Hz2.
    - unfold score_data. cbn [Val.get bind].
      fold (field_or d "JD Match" (VStr "N/A")).
      fold (field_or d "ATSScore" (VStr "N/A")).
      now rewrite Hz1, Hz2.
    - exact (percent_reads_back n1 Hr1).
    - exact (percent_reads_back n2 Hr2). }
  split; [reflexivity|]. split; [reflexivity|].
  split; [rewrite process_dict; reflexivity|].
  split; [rewrite process_dict; reflexivity|].
  split; reflexivity.
Qed.

Ltac cut_points :=
  repeat match goal with
         | |- context [?a <=? ?b] =>
             let E := fresh "E" in destruct (Z.leb_spec a b) as [E|E]
         end;
  simpl; repeat split; intros; try discriminate; try lia.

(** C8.  The job-match score is classified good (green) from 70, medium
    (orange) from 50 and poor (red) below; the ATS score good from 80, medium
    from 60 and poor below; the report labels its two rows Excellent, Good
    and Needs Improvement at the same cut points.  So the job match
    [45% - weak alignment] reads 45, is poor and is labelled Needs
    Improvement, and the ATS score [82] reads 82, is good and is labelled
    Excellent. *)
Theorem score_classification :
  (forall n : Z,
      (classify (match_color n) = Some good <-> 70 <= n)
      /\ (classify (match_color n) = Some medium <-> 50 <= n < 70)
      /\ (classify (match_color n) = Some poor <-> n < 50)
      /\ (classify (ats_color n) = Some good <-> 80 <= n)
      /\ (classify (ats_color n) = Some medium <-> 60 <= n < 80)
      /\ (classify (ats_color n) = Some poor <-> n < 60)
      /\ (match_status n = "Excellent" <-> 70 <= n)
      /\ (match_status n = "Good" <-> 50 <= n < 70)
      /\ (match_status n = "Needs Improvement" <-> n < 50)
      /\ (ats_status n = "Excellent" <-> 80 <= n)
      /\ (ats_status n = "Good" <-> 60 <= n < 80)
      /\ (ats_status n = "Needs Improvement" <-> n < 60))
  /\ display_score_card (VStr "45% - weak alignment") (VStr "82") =
       Ok (Metric 45 "45%" "red", Metric 82 "82%" "green")
  /\ score_data (VDict [("JD Match", VStr "45% - weak alignment");
                        ("ATSScore", VStr "82")]) =
       Ok [ ["Metric"; "Score"; "Status"];
            ["Job Description Match"; "45%"; "Needs Improvement"];
            ["ATS Optimization Score"; "82%"; "Excellent"] ].
Proof.
  split; [|split; reflexivity].
  intros n. unfold match_color, ats_color, match_status, ats_status.
  cut_points.
Qed.

(** C2 (as amended).  The validator skips a score field that is absent: it
    checks only the score fields present, and returns a mapping that has
    neither as it is.  No missing-field error comes from the validator. *)
Theorem absent_score_fields_skipped :
  (forall (d : list (string * value)) (f : string),
      Val.lookup f d = None -> check_score (VDict d) f = Ok tt)
  /\ (forall d : list (string * value),
         Val.lookup "JD Match" d = None ->
         Val.lookup "ATSScore" d = None ->
         process_ats_results json_loads (VDict d) = Ok (VDict d))
  /\ (forall d : list (string * value),
         Val.lookup "JD Match" d = None ->
         process_ats_results json_loads (VDict d) =
           except_reraise "Error processing ATS results"
             (_ <- check_score (VDict d) "ATSScore" ;; Ok (VDict d)))
  /\ (forall d : list (string * value),
         Val.lookup "ATSScore" d = None ->
         process_ats_results json_loads (VDict d) =
           except_reraise "Error processing ATS results"
             (_ <- check_score (VDict d) "JD Match" ;; Ok (VDict d))).
Proof.
  split; [exact check_score_absent|]. split; [|split].
  - intros d H1 H2. rewrite process_dict, check_scores_split.
    now rewrite (check_score_absent d _ H1), (check_score_absent d _ H2).
  - intros d H1. rewrite process_dict, check_scores_split.
    rewrite (check_score_absent d _ H1). simpl.
    now destruct (check_score (VDict d) "ATSScore") as [[]|e].
  - intros d H2. rewrite process_dict, check_scores_split.
    rewrite (check_score_absent d _ H2).
    now destruct (check_score (VDict d) "JD Match") as [[]|e].
Qed.

(** The action plan of a mapping, field by field. *)
Lemma action_plan_dict (d : list (string * value)) :
  generate_action_plan json_loads (VDict d) =
    if dict_or_absent "Recommendations" d && dict_or_absent "SkillsAlignment" d
    then Ok (VDict
               [("immediate_actions",
                 nested_field_or d "Recommendations" "HighPriority" (VList []));
                ("keyword_integration",
                 nested_field_or d "Recommendations" "KeywordOptimization" (VList []));
                ("missing_keywords", field_or d "MissingKeywords" (VList []));
                ("skill_gaps",
                 nested_field_or d "SkillsAlignment" "GapAnalysis" (VStr ""));
                ("red_flags_to_fix", field_or d "RedFlags" (VList []));
                ("competitive_edge", field_or d "CompetitiveAdvantage" (VStr ""))])
    else Raise (Reraised "Error generating action plan" AttributeError).
Proof.
  unfold generate_action_plan, dict_or_absent, nested_field_or, field_or.
  simpl.
  destruct (Val.lookup "Recommendations" d) as [r|];
    destruct (Val.lookup "SkillsAlignment" d) as [a|];
    try destruct r; try destruct a; reflexivity.
Qed.

(** C3 (as amended).  On a mapping the deriver returns an action plan exactly
    when the fields Recommendations and SkillsAlignment are each absent or a
    mapping, and raises (an AttributeError, re-raised) otherwise.  A text
    that does not parse as JSON raises the parser's error; a text that parses
    to a mapping is treated as that mapping, and a text that parses to
    anything else raises as well. *)
Theorem action_plan_failures :
  (forall d : list (string * value),
      succeeds (generate_action_plan json_loads (VDict d)) =
        dict_or_absent "Recommendations" d && dict_or_absent "SkillsAlignment" d)
  /\ (forall d : list (string * value),
         succeeds (generate_action_plan json_loads (VDict d)) = false ->
         generate_action_plan json_loads (VDict d) =
           Raise (Reraised "Error generating action plan" AttributeError))
  /\ (forall s : string,
         json_loads s = None ->
         generate_action_plan json_loads (VStr s) =
           Raise (Reraised "Error generating action plan" JSONDecodeError))
  /\ (forall (s : string) (d : list (string * value)),
         json_loads s = Some (VDict d) ->
         generate_action_plan json_loads (VStr s) =
           generate_action_plan json_loads (VDict d))
  /\ (forall (s : string) (v : value),
         json_loads s = Some v ->
         is_dict v = false ->
         generate_action_plan json_loads (VStr s) =
           Raise (Reraised "Error generating action plan" AttributeError)).
Proof.
  split; [|split; [|split; [|split]]].
  - intros d. rewrite action_plan_dict.
    now destruct (dict_or_absent "Recommendations" d && dict_or_absent "SkillsAlignment" d).
  - intros d. rewrite action_plan_dict.
    destruct (dict_or_absent "Recommendations" d && dict_or_absent "SkillsAlignment" d);
      [discriminate | reflexivity].
  - intros s H. unfold generate_action_plan, loads_if_str, loads.
    now rewrite H.
  - intros s d H. unfold generate_action_plan, loads_if_str, loads.
    now rewrite H.
  - intros s v H Hv. unfold generate_action_plan, loads_if_str, loads.
    rewrite H. destruct v; try discriminate; reflexivity.
Qed.

(** C5.  For a mapping whose Recommendations and SkillsAlignment are absent
    or mappings, the action plan has immediate_actions and
    keyword_integration from Recommendations.HighPriority and
    Recommendations.KeywordOptimization, missing_keywords from
    MissingKeywords, skill_gaps from SkillsAlignment.GapAnalysis,
    red_flags_to_fix from RedFlags and competitive_edge from
    CompetitiveAdvantage, with the empty list (the empty text for skill_gaps
    and competitive_edge) where the field or its parent is absent.  So
    missing_keywords is MissingKeywords itself, and without Recommendations
    both immediate_actions and keyword_integration are empty. *)
Theorem action_plan_projection :
  forall d : list (string * value),
    dict_or_absent "Recommendations" d = true ->
    dict_or_absent "SkillsAlignment" d = true ->
    let plan := generate_action_plan json_loads (VDict d) in
    plan =
      Ok (VDict
            [("immediate_actions",
              nested_field_or d "Recommendations" "HighPriority" (VList []));
             ("keyword_integration",
              nested_field_or d "Recommendations" "KeywordOptimization" (VList []));
             ("missing_keywords", field_or d "MissingKeywords" (VList []));
             ("skill_gaps",
              nested_field_or d "SkillsAlignment" "GapAnalysis" (VStr ""));
             ("red_flags_to_fix", field_or d "RedFlags" (VList []));
             ("competitive_edge", field_or d "CompetitiveAdvantage" (VStr ""))])
    /\ (forall mk, Val.lookup "MissingKeywords" d = Some mk ->
                   plan_field plan "missing_keywords" = Some mk)
    /\ (Val.lookup "Recommendations" d = None ->
        plan_field plan "immediate_actions" = Some (VList [])
        /\ plan_field plan "keyword_integration" = Some (VList [])).
Proof.
  intros d Hr Ha plan.
  assert (Hp : plan =
      Ok (VDict
            [("immediate_actions",
              nested_field_or d "Recommendations" "HighPriority" (VList []));
             ("keyword_integration",
              nested_field_or d "Recommendations" "KeywordOptimization" (VList []));
             ("missing_keywords", field_or d "MissingKeywords" (VList []));
             ("skill_gaps",
              nested_field_or d "SkillsAlignment" "GapAnalysis" (VStr ""));
             ("red_flags_to_fix", field_or d "RedFlags" (VList []));
             ("competitive_edge", field_or d "CompetitiveAdvantage" (VStr ""))])).
  { unfold plan. now rewrite action_plan_dict, Hr, Ha. }
  split; [exact Hp|]. rewrite Hp. split.
  - intros mk Hmk. simpl. unfold field_or. now rewrite Hmk.
  - intros Hnone. unfold nested_field_or. rewrite Hnone. now split.
Qed.

(** C6 (as amended).  A mapping with a score field whose number lies outside
    0..100 (a number above 100, the digits giving no sign) is never returned.
    The error is the range error of that field when the field is JD Match,
    and when it is ATSScore and the check of JD Match passes (JD Match is
    absent, or reads a number in range); when JD Match is present and gives
    no number, its own error (the ValueError of [int] or the IndexError of
    [split()[0]]) is the one raised, whatever ATSScore holds.  A mapping
    with ATSScore [150] is always rejected. *)
Theorem out_of_range_scores_rejected :
  (forall (d : list (string * value)) (f : string) (v : value) (n : Z),
      f = "JD Match" \/ f = "ATSScore" ->
      Val.lookup f d = Some v ->
      score_number (Val.str v) = Ok n ->
      in_range n = false ->
      100 < n
      /\ succeeds (process_ats_results json_loads (VDict d)) = false
      /\ (f = "JD Match" ->
          process_ats_results json_loads (VDict d) =
            Raise (Reraised "Error processing ATS results"
                     (ValueError "JD Match must be between 0-100")))
      /\ (f = "ATSScore" ->
          check_score (VDict d) "JD Match" = Ok tt ->
          process_ats_results json_loads (VDict d) =
            Raise (Reraised "Error processing ATS results"
                     (ValueError "ATSScore must be between 0-100")))
      /\ (f = "ATSScore" ->
          Val.lookup "JD Match" d = None ->
          process_ats_results json_loads (VDict d) =
            Raise (Reraised "Error processing ATS results"
                     (ValueError "ATSScore must be between 0-100")))
      /\ (f = "ATSScore" ->
          forall (v1 : value) (n1 : Z),
            Val.lookup "JD Match" d = Some v1 ->
            score_number (Val.str v1) = Ok n1 ->
            process_ats_results json_loads (VDict d) =
              Raise (Reraised "Error processing ATS results"
                       (ValueError
                          (if in_range n1
                           then "ATSScore must be between 0-100"
                           else "JD Match must be between 0-100"))))
      /\ (f = "ATSScore" ->
          forall (v1 : value) (e : exn),
            Val.lookup "JD Match" d = Some v1 ->
            score_number (Val.str v1) = Raise e ->
            process_ats_results json_loads (VDict d) =
              Raise (Reraised "Error processing ATS results" e)
            /\ (e = IntValueError \/ e = IndexError)))
  /\ (forall d : list (string * value),
         Val.lookup "ATSScore" d = Some (VStr "150") ->
         succeeds (process_ats_results json_loads (VDict d)) = false)
  /\ process_ats_results json_loads (VDict [("ATSScore", VStr "150")]) =
       Raise (Reraised "Error processing ATS results"
                (ValueError "ATSScore must be between 0-100")).
Proof.
  assert (Hfield : forall d f v n,
             Val.lookup f d = Some v ->
             score_number (Val.str v) = Ok n ->
             in_range n = false ->
             check_score (VDict d) f =
               Raise (ValueError (f ++ " must be between 0-100"))).
  { intros d f v n Hl Hn Hr.
    rewrite (check_score_present d f v Hl), Hn. simpl. now rewrite Hr. }
  assert (Hats : forall d v n,
             Val.lookup "ATSScore" d = Some v ->
             score_number (Val.str v) = Ok n ->
             in_range n = false ->
             succeeds (process_ats_results json_loads (VDict d)) = false).
  { intros d v n Hl Hn Hr.
    rewrite process_dict, check_scores_split, (Hfield d _ v n Hl Hn Hr).
    now destruct (check_score (VDict d) "JD Match") as [[]|e]. }
  split; [|split].
  - intros d f v n Hf Hl Hn Hr.
    split.
    { pose proof (score_number_nonneg _ _ Hn) as H0.
      unfold in_range in Hr. apply andb_false_iff in Hr as [Hr|Hr].
      - apply Z.leb_gt in Hr. lia.
      - apply Z.leb_gt in Hr. lia. }
    split; [|split; [|split; [|split; [|split]]]].
    + destruct Hf as [-> | ->].
      * rewrite process_dict, check_scores_split, (Hfield d _ v n Hl Hn Hr).
        reflexivity.
      * exact (Hats d v n Hl Hn Hr).
    + intros ->.
      rewrite process_dict, check_scores_split, (Hfield d _ v n Hl Hn Hr).
      reflexivity.
    + intros -> Hjd.
      rewrite process_dict, check_scores_split, Hjd,
        (Hfield d _ v n Hl Hn Hr).
      reflexivity.
    + intros -> Hnone.
      rewrite process_dict, check_scores_split,
        (check_score_absent d _ Hnone), (Hfield d _ v n Hl Hn Hr).
      reflexivity.
    + intros -> v1 n1 Hl1 Hn1.
      rewrite process_dict, check_scores_split.
      rewrite (check_score_present d _ v1 Hl1), Hn1. cbn [bind].
      destruct (in_range n1); cbn [bind].
      * now rewrite (Hfield d _ v n Hl Hn Hr).
      * reflexivity.
    + intros -> v1 e Hl1 He1. split.
      * rewrite process_dict, check_scores_split.
        rewrite (check_score_present d _ v1 Hl1), He1. reflexivity.
      * destruct (score_number_raises _ _ He1) as [[-> _] | [-> _]];
          [now right | now left].
  - intros d Hl. apply (Hats d (VStr "150") 150 Hl); reflexivity.
  - rewrite process_dict. reflexivity.
Qed.

(** C9.  When validation of a mapping succeeds, the value returned is the
    mapping given, no field touched; with objects at addresses, the address
    returned is the address given and the heap is as it was.  So validating
    the result again succeeds with the same mapping, and when the JSON text
    of a valid mapping parses back to it, validating the text succeeds and
    yields that mapping, whose score fields pass the same range checks. *)
Theorem validation_returns_argument :
  (forall (d : list (string * value)) (v : value),
      process_ats_results json_loads (VDict d) = Ok v ->
      v = VDict d
      /\ check_scores (VDict d) = Ok tt
      /\ process_ats_results json_loads v = Ok v)
  /\ (forall (h : list value) (a : loc) (d : list (string * value)),
         nth_error h a = Some (VDict d) ->
         succeeds (process_ats_results json_loads (VDict d)) = true ->
         process_ats_results_at json_loads h a = Ok (a, h))
  /\ (forall (json_dumps : value -> string) (d : list (string * value)),
         json_loads (json_dumps (VDict d)) = Some (VDict d) ->
         succeeds (process_ats_results json_loads (VDict d)) = true ->
         process_ats_results json_loads (VStr (json_dumps (VDict d))) =
           Ok (VDict d)
         /\ check_scores (VDict d) = Ok tt).
Proof.
  assert (Hok : forall d,
             succeeds (process_ats_results json_loads (VDict d)) = true ->
             check_scores (VDict d) = Ok tt).
  { intros d H. rewrite process_dict in H.
    now destruct (check_scores (VDict d)) as [[]|e]. }
  split; [|split].
  - intros d v H.
    assert (Hc : check_scores (VDict d) = Ok tt).
    { apply Hok. now rewrite H. }
    rewrite process_dict, Hc in H. injection H as <-.
    split; [reflexivity|]. split; [exact Hc|].
    now rewrite process_dict, Hc.
  - intros h a d Hn H. unfold process_ats_results_at.
    rewrite Hn. simpl. now rewrite (Hok d H).
  - intros json_dumps d Hrt H. split; [|exact (Hok d H)].
    unfold process_ats_results, loads_if_str, loads.
    rewrite Hrt. simpl. now rewrite (Hok d H).
Qed.


(** C4 (as amended).  The prompt builder fails, with the error for invalid
    input, exactly when one of the two texts is empty as given; it trims
    only afterwards.  For two non-empty texts it returns the fixed template
    with the two trimmed texts in the places of its two fields, so a text of
    whitespace only is accepted and enters the prompt as the empty text. *)
Theorem prompt_rejects_empty_inputs :
  (forall r j : string,
      prepare_prompt r j =
        Raise (ValueError "Resume text and job description cannot be empty")
      <-> r = "" \/ j = "")
  /\ (forall r j : string,
         r <> "" -> j <> "" ->
         prepare_prompt r j =
           Ok (template_head ++ Py.strip r ++ template_middle
                 ++ Py.strip j ++ prompt_tail))
  /\ (forall r j : string,
         r <> "" -> j <> "" ->
         Py.forallb Py.isspace r = true ->
         prepare_prompt r j =
           Ok (template_head ++ template_middle ++ Py.strip j ++ prompt_tail)).
Proof.
  assert (Hfill : forall r j,
             r <> "" -> j <> "" ->
             prepare_prompt r j =
               Ok (template_head ++ Py.strip r ++ template_middle
                     ++ Py.strip j ++ prompt_tail)).
  { intros r j Hr Hj. unfold prepare_prompt.
    apply String.eqb_neq in Hr, Hj. rewrite Hr, Hj. cbn [orb].
    unfold prompt_template. apply format_two_fields.
    - vm_compute. reflexivity.
    - vm_compute. reflexivity.
    - exact template_tail_formatted. }
  split; [|split].
  - intros r j. split.
    + intros H.
      destruct (String.eqb_spec r "") as [Hr|Hr]; [now left|].
      destruct (String.eqb_spec j "") as [Hj|Hj]; [now right|].
      rewrite (Hfill r j Hr Hj) in H. discriminate.
    + intros [-> | ->]; unfold prepare_prompt.
      * reflexivity.
      * now rewrite String.eqb_refl, orb_true_r.
  - exact Hfill.
  - intros r j Hr Hj Hws. rewrite (Hfill r j Hr Hj).
    now rewrite (strip_whitespace r Hws).
Qed.

End Properties.

(** ** The theorems at concrete inputs *)

Lemma score_extraction_witness :
  (Py.forallb Py.isspace "  " = true
   /\ Py.forallb Py.isdigit "45" = true
   /\ Py.forallb nondigit "%" = true
   /\ Py.forallb nonspace "45%" = true
   /\ token_end " - weak alignment" = true
   /\ score_number "  45% - weak alignment" = Ok 45
   /\ score_or_zero (VStr "  45% - weak alignment") = Ok 45)
  /\ (Py.forallb nondigit "pending review" = true
      /\ succeeds (score_number "pending review") = false
      /\ succeeds (score_or_zero (VStr "pending review")) = false)
  /\ (Py.forallb nondigit "   " = true
      /\ exists e : exn,
          e = IndexError
          /\ score_number "   " = Raise e
          /\ display_score_card (VStr "   ") (VStr "82") = Raise e
          /\ process_ats_results Json.loads (VDict [("JD Match", VStr "   ")]) =
               Raise (Reraised "Error processing ATS results" e)).
Proof.
  destruct (score_extraction Json.loads) as (Hrun & _ & Hnone).
  split; [|split].
  3:{ destruct (Hnone "   " eq_refl)
        as (_ & _ & e & He & Hs & _ & Hjd & _ & Hsites).
      split; [reflexivity|]. exists e.
      split; [exact He|]. split; [exact Hs|]. split; [|exact Hjd].
      apply (proj1 (proj2 (Hsites ltac:(discriminate)))). }
  - destruct (Hrun "  " "45" "%" " - weak alignment" eq_refl
                ltac:(discriminate) eq_refl eq_refl eq_refl eq_refl)
      as (H1 & H2 & _).
    do 5 (split; [reflexivity|]). split; [exact H1 | exact H2].
  - destruct (Hnone "pending review" eq_refl) as (H1 & H2 & _).
    split; [reflexivity|]. split; [exact H1 | apply H2; discriminate].
Defined.

(** C1, the claim as stated fails: a text without a digit is not read as 0
    by the score card or the report, and the validator does not read the
    sentinel as 0. *)
Lemma score_extraction_counterexample :
  Py.forallb nondigit "pending" = true
  /\ display_score_card (VStr "pending") (VStr "82") = Raise IntValueError
  /\ score_data (VDict [("JD Match", VStr "pending"); ("ATSScore", VStr "82")]) =
       Raise IntValueError
  /\ process_ats_results Json.loads (VDict [("JD Match", VStr "N/A")]) =
       Raise (Reraised "Error processing ATS results" IntValueError).
Proof. repeat split; reflexivity. Qed.

Lemma score_digits_everywhere_witness :
  (Py.forallb Py.isspace "" = true
   /\ Py.forallb nonspace "45.5%" = true
   /\ token_end " of the role" = true
   /\ score_number "45.5% of the role" = Ok 455)
  /\ (Val.lookup "ATSScore" sample_result = Some (VInt 82)
      /\ check_score (VDict sample_result) "ATSScore" =
           (n <- score_number "82" ;;
            if in_range n then Ok tt
            else Raise (ValueError "ATSScore must be between 0-100")))
  /\ (Val.ne_str (VStr "45.5%") "N/A" = true
      /\ Val.ne_str (VInt 82) "N/A" = true
      /\ display_score_card (VStr "45.5%") (VInt 82) =
           Ok (Metric 455 "455%" "green", Metric 82 "82%" "green"))
  /\ (succeeds (process_ats_results Json.loads
                  (VDict [("ATSScore", VStr "82 - parses well")])) = true
      /\ exists n1 n2 : Z,
          n1 = 0
          /\ score_number "82 - parses well" = Ok n2
          /\ display_score_card (VStr "N/A") (VStr "82 - parses well") =
               Ok (Metric n1 (percent n1) (match_color n1),
                   Metric n2 (percent n2) (ats_color n2))
          /\ score_number (percent n2) = Ok n2).
Proof.
  destruct (score_digits_everywhere Json.loads)
    as (Htok & _ & _ & Hcheck & Hcard & _ & Hshown & _).
  split; [|split; [|split]].
  - do 3 (split; [reflexivity|]).
    apply (Htok "" "45.5%" " of the role"); try reflexivity. discriminate.
  - split; [reflexivity|].
    apply (Hcheck sample_result "ATSScore" (VInt 82)). reflexivity.
  - do 2 (split; [reflexivity|]).
    apply (Hcard (VStr "45.5%") (VInt 82)); reflexivity.
  - split; [reflexivity|].
    destruct (Hshown [("ATSScore", VStr "82 - parses well")] eq_refl)
      as (n1 & n2 & _ & _ & _ & Hv2 & Ha1 & _ & Hd & _ & _ & Hp2).
    exists n1, n2. split; [now apply Ha1|].
    split; [now apply (Hv2 (VStr "82 - parses well"))|].
    split; [exact Hd | exact Hp2].
Defined.

(** C10, the claim as stated fails: the three call sites do not follow one
    rule on the sentinel.  The expression of the validator raises on it,
    and the score card and the report read 0. *)
Lemma score_sites_differ_on_sentinel :
  score_number "N/A" = Raise IntValueError
  /\ process_ats_results Json.loads (VDict [("JD Match", VStr "N/A")]) =
       Raise (Reraised "Error processing ATS results" IntValueError)
  /\ display_score_card (VStr "N/A") (VStr "N/A") =
       Ok (Metric 0 "0%" "red", Metric 0 "0%" "red")
  /\ score_data (VDict [("JD Match", VStr "N/A"); ("ATSScore", VStr "N/A")]) =
       Ok [ ["Metric"; "Score"; "Status"];
            ["Job Description Match"; "0%"; "Needs Improvement"];
            ["ATS Optimization Score"; "0%"; "Needs Improvement"] ].
Proof. repeat split; reflexivity. Qed.

Lemma absent_score_fields_skipped_witness :
  Val.lookup "JD Match" [("Profile Summary", VStr "Strong profile")] = None
  /\ Val.lookup "ATSScore" [("Profile Summary", VStr "Strong profile")] = None
  /\ process_ats_results Json.loads
       (VDict [("Profile Summary", VStr "Strong profile")]) =
     Ok (VDict [("Profile Summary", VStr "Strong profile")]).
Proof.
  do 2 (split; [reflexivity|]).
  apply (proj1 (proj2 (absent_score_fields_skipped Json.loads))); reflexivity.
Defined.

(** C2, the claim as stated fails: a mapping without [JD Match] is returned,
    and so is a mapping with neither score field. *)
Lemma absent_score_fields_counterexample :
  Val.lookup "JD Match" [("ATSScore", VStr "82")] = None
  /\ process_ats_results Json.loads (VDict [("ATSScore", VStr "82")]) =
       Ok (VDict [("ATSScore", VStr "82")])
  /\ process_ats_results Json.loads (VDict []) = Ok (VDict []).
Proof. repeat split; reflexivity. Qed.

Lemma action_plan_failures_witness :
  (succeeds (generate_action_plan Json.loads
               (VDict [("Recommendations", VStr "Add metrics")])) = false
   /\ generate_action_plan Json.loads
        (VDict [("Recommendations", VStr "Add metrics")]) =
      Raise (Reraised "Error generating action plan" AttributeError))
  /\ (Json.loads "not json" = None
      /\ generate_action_plan Json.loads (VStr "not json") =
         Raise (Reraised "Error generating action plan" JSONDecodeError))
  /\ (Json.loads "{}" = Some (VDict [])
      /\ generate_action_plan Json.loads (VStr "{}") =
         generate_action_plan Json.loads (VDict []))
  /\ (Json.loads "[1, 2]" = Some (VList [VInt 1; VInt 2])
      /\ generate_action_plan Json.loads (VStr "[1, 2]") =
         Raise (Reraised "Error generating action plan" AttributeError)).
Proof.
  destruct (action_plan_failures Json.loads) as (_ & Hfail & Hbad & Hmap & Hother).
  split; [|split; [|split]].
  - split; [reflexivity|]. apply Hfail. reflexivity.
  - split; [reflexivity|]. apply Hbad. reflexivity.
  - split; [reflexivity|]. apply Hmap. reflexivity.
  - split; [reflexivity|].
    apply (Hother "[1, 2]" (VList [VInt 1; VInt 2])); reflexivity.
Defined.

(** C3, the claim as stated fails: mappings on which the deriver raises. *)
Lemma action_plan_counterexample :
  generate_action_plan Json.loads
    (VDict [("Recommendations", VStr "Add metrics")]) =
    Raise (Reraised "Error generating action plan" AttributeError)
  /\ generate_action_plan Json.loads (VDict [("SkillsAlignment", VNone)]) =
       Raise (Reraised "Error generating action plan" AttributeError).
Proof. split; reflexivity. Qed.

Lemma prompt_rejects_empty_inputs_witness :
  Py.forallb Py.isspace "   " = true
  /\ prepare_prompt "  Ten years of Rocq " "Proof engineer" =
       Ok (template_head ++ "Ten years of Rocq" ++ template_middle
             ++ "Proof engineer" ++ prompt_tail)
  /\ prepare_prompt "   " "Proof engineer" =
       Ok (template_head ++ template_middle ++ "Proof engineer" ++ prompt_tail).
Proof.
  destruct prompt_rejects_empty_inputs as (_ & Hfill & Hws).
  split; [reflexivity|]. split.
  - apply (Hfill "  Ten years of Rocq " "Proof engineer"); discriminate.
  - apply (Hws "   " "Proof engineer"); try discriminate. reflexivity.
Defined.

(** C4, the claim as stated fails: a text that is empty after trimming is
    accepted. *)
Lemma prompt_whitespace_counterexample :
  Py.strip "   " = ""
  /\ succeeds (prepare_prompt "   " "Proof engineer") = true
  /\ succeeds (prepare_prompt "CV" (String (Val.chr 10) " ")) = true.
Proof. repeat split; vm_compute; reflexivity. Qed.

Lemma action_plan_projection_witness :
  dict_or_absent "Recommendations" sample_result = true
  /\ dict_or_absent "SkillsAlignment" sample_result = true
  /\ generate_action_plan Json.loads (VDict sample_result) =
       Ok (VDict
             [("immediate_actions", VList [VStr "Add metrics"]);
              ("keyword_integration", VList []);
              ("missing_keywords", VList [VStr "Kubernetes"; VStr "Terraform"]);
              ("skill_gaps", VStr "No cloud experience");
              ("red_flags_to_fix", VList []);
              ("competitive_edge", VStr "Open-source work")]).
Proof.
  split; [reflexivity|]. split; [reflexivity|].
  apply (proj1 (action_plan_projection Json.loads sample_result eq_refl eq_refl)).
Defined.

Lemma out_of_range_scores_rejected_witness :
  Val.lookup "ATSScore" [("JD Match", VStr "70"); ("ATSScore", VStr "150")] =
    Some (VStr "150")
  /\ score_number "150" = Ok 150
  /\ in_range 150 = false
  /\ check_score (VDict [("JD Match", VStr "70"); ("ATSScore", VStr "150")])
       "JD Match" = Ok tt
  /\ process_ats_results Json.loads
       (VDict [("JD Match", VStr "70"); ("ATSScore", VStr "150")]) =
     Raise (Reraised "Error processing ATS results"
              (ValueError "ATSScore must be between 0-100"))
  /\ Val.lookup "JD Match" [("JD Match", VStr "high"); ("ATSScore", VStr "150")] =
       Some (VStr "high")
  /\ score_number "high" = Raise IntValueError
  /\ process_ats_results Json.loads
       (VDict [("JD Match", VStr "high"); ("ATSScore", VStr "150")]) =
     Raise (Reraised "Error processing ATS results" IntValueError).
Proof.
  do 4 (split; [reflexivity|]).
  destruct (out_of_range_scores_rejected Json.loads) as (H & _ & _).
  split.
  - destruct (H [("JD Match", VStr "70"); ("ATSScore", VStr "150")]
                "ATSScore" (VStr "150") 150
                (or_intror eq_refl) eq_refl eq_refl eq_refl)
      as (_ & _ & _ & Hats & _).
    apply Hats; reflexivity.
  - do 2 (split; [reflexivity|]).
    destruct (H [("JD Match", VStr "high"); ("ATSScore", VStr "150")]
                "ATSScore" (VStr "150") 150
                (or_intror eq_refl) eq_refl eq_refl eq_refl)
      as (_ & _ & _ & _ & _ & _ & Hfmt).
    apply (proj1 (Hfmt eq_refl (VStr "high") IntValueError eq_refl eq_refl)).
Defined.

(** C6, the claim as stated fails: [ATSScore] reads 150, outside the range,
    and the error raised is the one of [JD Match], which gives no number. *)
Lemma out_of_range_counterexample :
  score_number "150" = Ok 150
  /\ in_range 150 = false
  /\ process_ats_results Json.loads
       (VDict [("JD Match", VStr "high"); ("ATSScore", VStr "150")]) =
     Raise (Reraised "Error processing ATS results" IntValueError).
Proof. repeat split; reflexivity. Qed.


Lemma validation_returns_argument_witness :
  process_ats_results Json.loads (VDict sample_result) = Ok (VDict sample_result)
  /\ nth_error [VStr "text"; VDict sample_result] 1 = Some (VDict sample_result)
  /\ process_ats_results_at Json.loads [VStr "text"; VDict sample_result] 1%nat =
       Ok (1%nat, [VStr "text"; VDict sample_result])
  /\ Json.loads (Json.dumps (VDict sample_result)) = Some (VDict sample_result)
  /\ process_ats_results Json.loads (VStr (Json.dumps (VDict sample_result))) =
       Ok (VDict sample_result).
Proof.
  destruct (validation_returns_argument Json.loads) as (Hsame & Hat & Hround).
  split; [reflexivity|]. split; [reflexivity|]. split; [|split].
  - apply (Hat _ 1%nat sample_result); reflexivity.
  - vm_compute. reflexivity.
  - apply (Hround Json.dumps sample_result); vm_compute; reflexivity.
Defined.

(** ** Further properties: the extraction of the resume text *)

Lemma page_texts_all_ok (texts : list string) :
  page_texts (List.map Ok texts) = Ok (List.filter nonempty_text texts).
Proof.
  induction texts as [|t texts IH]; [reflexivity|].
  cbn [List.map page_texts bind List.filter]. rewrite IH. cbn [bind].
  unfold nonempty_text. now destruct (String.eqb t "").
Qed.

Lemma page_texts_raise (pre : list string) (e : exn) (rest : list (result string)) :
  page_texts (List.map Ok pre ++ Raise e :: rest)%list = Raise e.
Proof.
  induction pre as [|t pre IH]; [reflexivity|].
  cbn [List.map List.app page_texts bind]. now rewrite IH.
Qed.

Lemma page_texts_nonempty (pages : list (result string)) (text : list string) :
  page_texts pages = Ok text -> Forall (fun t => t <> "") text.
Proof.
  revert text. induction pages as [|p pages IH]; intros text H.
  - injection H as <-. constructor.
  - cbn [page_texts] in H. destruct p as [t|e]; [|discriminate].
    cbn [bind] in H. destruct (page_texts pages) as [l|e]; [|discriminate].
    cbn [bind] in H. injection H as <-. specialize (IH l eq_refl).
    destruct (String.eqb_spec t ""); [assumption | now constructor].
Qed.

Lemma join_nonempty (sep : string) (l : list string) :
  l <> [] -> Forall (fun t => t <> "") l -> Val.join sep l <> "".
Proof.
  intros Hl Hall. destruct l as [|x l]; [congruence|].
  inversion Hall as [|? ? Hx _]; subst.
  destruct x as [|c x]; [congruence|].
  destruct l; simpl; discriminate.
Qed.

(** X1.  For a document whose pages all extract, the resume text is the texts
    of the pages that have any, in page order, joined by single spaces; a
    document without pages, and one whose pages are all empty, are refused
    with their own messages.  An exception of the reader or of a page is
    re-raised with the prefix of the function. *)
Theorem extract_pdf_text_joins_pages :
  (forall texts : list string,
      extract_pdf_text (Ok (List.map Ok texts)) =
        match texts with
        | [] => Raise (Reraised "Error extracting PDF text"
                         (Exception "PDF file is empty"))
        | _ =>
            match List.filter nonempty_text texts with
            | [] => Raise (Reraised "Error extracting PDF text"
                             (Exception "No text could be extracted from the PDF"))
            | text => Ok (Val.join " " text)
            end
        end)
  /\ (forall e : exn,
         extract_pdf_text (Raise e) = Raise (Reraised "Error extracting PDF text" e))
  /\ (forall (pre : list string) (e : exn) (rest : list (result string)),
         extract_pdf_text (Ok (List.map Ok pre ++ Raise e :: rest)%list) =
           Raise (Reraised "Error extracting PDF text" e)).
Proof.
  split; [|split].
  - intros texts. unfold extract_pdf_text. cbn [bind].
    rewrite page_texts_all_ok. cbn [bind].
    destruct texts as [|t texts]; [reflexivity|].
    cbn [List.map].
    now destruct (List.filter nonempty_text (t :: texts)).
  - reflexivity.
  - intros pre e rest. unfold extract_pdf_text. cbn [bind].
    rewrite page_texts_raise.
    destruct pre; reflexivity.
Qed.

Lemma extract_pdf_text_nonempty (file : pdf_file) (resume_text : string) :
  extract_pdf_text file = Ok resume_text -> resume_text <> "".
Proof.
  unfold extract_pdf_text. destruct file as [pages|e]; [|discriminate].
  cbn [bind]. destruct pages as [|p pages]; [discriminate|].
  destruct (page_texts (p :: pages)) as [text|e] eqn:E; [|discriminate].
  cbn [bind]. destruct text as [|t text]; [discriminate|].
  cbn [except_reraise]. intros H. injection H as <-.
  exact (join_nonempty " " (t :: text) ltac:(discriminate)
           (page_texts_nonempty _ _ E)).
Qed.

Lemma prepare_prompt_filled (r j : string) :
  r <> "" -> j <> "" ->
  prepare_prompt r j =
    Ok (template_head ++ Py.strip r ++ template_middle
          ++ Py.strip j ++ prompt_tail).
Proof.
  intros Hr Hj. unfold prepare_prompt.
  apply String.eqb_neq in Hr, Hj. rewrite Hr, Hj. cbn [orb].
  unfold prompt_template. apply format_two_fields.
  - vm_compute. reflexivity.
  - vm_compute. reflexivity.
  - exact template_tail_formatted.
Qed.

(** X2.  A resume text that [extract_pdf_text] returns is never empty, so
    the prompt builder called on it fails exactly when the job description
    is empty, and otherwise returns the filled template. *)
Theorem extracted_text_reaches_prompt :
  forall (file : pdf_file) (resume_text : string),
    extract_pdf_text file = Ok resume_text ->
    resume_text <> ""
    /\ forall jd : string,
        (succeeds (prepare_prompt resume_text jd) = false <-> jd = "")
        /\ (jd <> "" ->
            prepare_prompt resume_text jd =
              Ok (template_head ++ Py.strip resume_text ++ template_middle
                    ++ Py.strip jd ++ prompt_tail)).
Proof.
  intros file resume_text H.
  pose proof (extract_pdf_text_nonempty _ _ H) as Hne.
  split; [exact Hne|]. intros jd. split.
  - split.
    + intros Hf. destruct (String.eqb_spec jd "") as [E|E]; [exact E|].
      rewrite (prepare_prompt_filled _ _ Hne E) in Hf. discriminate.
    + intros ->. unfold prepare_prompt.
      now rewrite String.eqb_refl, orb_true_r.
  - intros Hjd. now apply prepare_prompt_filled.
Qed.

Lemma extracted_text_reaches_prompt_witness :
  extract_pdf_text sample_pdf = Ok "Jane Doe Proof engineer, 10 years"
  /\ succeeds (prepare_prompt "Jane Doe Proof engineer, 10 years" "") = false
  /\ prepare_prompt "Jane Doe Proof engineer, 10 years" " Rocq developer " =
       Ok (template_head ++ "Jane Doe Proof engineer, 10 years"
             ++ template_middle ++ "Rocq developer" ++ prompt_tail).
Proof.
  split; [reflexivity|].
  destruct (extracted_text_reaches_prompt sample_pdf
              "Jane Doe Proof engineer, 10 years" eq_refl) as [_ H].
  split.
  - apply (proj1 (H "")). reflexivity.
  - apply (proj2 (H " Rocq developer ")). discriminate.
Defined.

(** ** Further properties: the model client and the validator *)

Lemma for_each_required (d : list (string * value)) (fields : list string) :
  for_each
    (fun field =>
       present <- Val.contains (VDict d) field ;;
       if negb present
       then Raise (ValueError ("Missing required field: " ++ field))
       else Ok tt)
    fields =
  match List.find (fun field => negb (has_key field d)) fields with
  | None => Ok tt
  | Some f => Raise (ValueError ("Missing required field: " ++ f))
  end.
Proof.
  induction fields as [|f fields IH]; [reflexivity|].
  cbn [for_each List.find]. unfold has_key at 1. cbn [Val.contains bind].
  destruct (Val.lookup f d); cbn [negb bind]; [exact IH | reflexivity].
Qed.





Lemma check_score_passes (d : list (string * value)) (f : string) :
  succeeds (check_score (VDict d) f) = score_passes d f.
Proof.
  unfold score_passes. destruct (Val.lookup f d) as [v|] eqn:E.
  - rewrite (check_score_present d f v E).
    destruct (score_number (Val.str v)) as [n|e]; [|reflexivity].
    cbn [bind]. now destruct (in_range n).
  - now rewrite (check_score_absent d f E).
Qed.

Section MoreProperties.

Variable json_loads : string -> option value.
Variable generate_content : string -> result string.

(** X3.  The client refuses an empty reply, and passes on an exception of
    the model call under its own prefix.  A reply that parses to a mapping
    is returned as it is exactly when the mapping has all seven required
    fields; otherwise the error names the first one missing, in the order
    of the list of required fields. *)
Theorem strict_reply_needs_all_fields :
  (forall prompt : string,
      generate_content prompt = Ok "" ->
      get_gemini_response json_loads generate_content prompt =
        Raise (Reraised "Error generating response"
                 (Exception "Empty response received from Gemini")))
  /\ (forall (prompt : string) (e : exn),
         generate_content prompt = Raise e ->
         get_gemini_response json_loads generate_content prompt =
           Raise (Reraised "Error generating response" e))
  /\ (forall (prompt text : string) (d : list (string * value)),
         generate_content prompt = Ok text ->
         text <> "" ->
         json_loads text = Some (VDict d) ->
         get_gemini_response json_loads generate_content prompt =
           match first_missing d with
           | None => Ok text
           | Some f =>
               Raise (Reraised "Error generating response"
                        (ValueError ("Missing required field: " ++ f)))
           end
         /\ (first_missing d = None <->
             forall f, In f required_fields -> has_key f d = true)).
Proof.
  split; [|split].
  - intros prompt H. unfold get_gemini_response. now rewrite H.
  - intros prompt e H. unfold get_gemini_response. now rewrite H.
  - intros prompt text d Hg Hne Hj. split.
    + unfold get_gemini_response. rewrite Hg. cbn [bind].
      apply String.eqb_neq in Hne. rewrite Hne, Hj.
      rewrite for_each_required. fold (first_missing d).
      now destruct (first_missing d).
    + unfold first_missing. split.
      * intros Hnone f Hin.
        pose proof (List.find_none _ _ Hnone f Hin) as Hf.
        now apply negb_false_iff in Hf.
      * intros Hall.
        destruct (List.find (fun field => negb (has_key field d)) required_fields)
          as [f|] eqn:E; [|reflexivity].
        apply List.find_some in E as [Hin Hf].
        rewrite (Hall f Hin) in Hf. discriminate.
Qed.


(** X5.  The validator accepts a mapping exactly when each of the two score
    fields is absent or reads a number from 0 to 100, and then returns the
    mapping; nothing else about the mapping matters. *)
Theorem validator_accepts_iff :
  forall d : list (string * value),
    succeeds (process_ats_results json_loads (VDict d)) =
      score_passes d "JD Match" && score_passes d "ATSScore"
    /\ (score_passes d "JD Match" && score_passes d "ATSScore" = true ->
        process_ats_results json_loads (VDict d) = Ok (VDict d)).
Proof.
  intros d.
  rewrite <- !check_score_passes, process_dict, check_scores_split.
  destruct (check_score (VDict d) "JD Match") as [[]|e1];
    destruct (check_score (VDict d) "ATSScore") as [[]|e2];
    cbn; split; try reflexivity; discriminate.
Qed.

(** X6.  The validator does not ask for a mapping.  A text that parses to a
    list is accepted, and the list returned, unless one of the two field
    names is an element of it, which is a TypeError; a text that parses to
    None, a boolean or an integer is a TypeError. *)
Theorem validator_on_other_json :
  (forall (s : string) (l : list value),
      json_loads s = Some (VList l) ->
      process_ats_results json_loads (VStr s) =
        if List.existsb (Val.is_str "JD Match") l
           || List.existsb (Val.is_str "ATSScore") l
        then Raise (Reraised "Error processing ATS results" TypeError)
        else Ok (VList l))
  /\ (forall (s : string) (v : value),
         json_loads s = Some v ->
         v = VNone \/ (exists b, v = VBool b) \/ (exists z, v = VInt z) ->
         process_ats_results json_loads (VStr s) =
           Raise (Reraised "Error processing ATS results" TypeError)).
Proof.
  split.
  - intros s l H. unfold process_ats_results, loads_if_str, loads.
    rewrite H. cbn [bind]. rewrite check_scores_split.
    unfold check_score. cbn [Val.contains bind].
    destruct (List.existsb (Val.is_str "JD Match") l); [reflexivity|].
    cbn [bind orb].
    destruct (List.existsb (Val.is_str "ATSScore") l); reflexivity.
  - intros s v H Hv. unfold process_ats_results, loads_if_str, loads.
    rewrite H. destruct Hv as [-> | [[b ->] | [z ->]]]; reflexivity.
Qed.

End MoreProperties.

Lemma strict_reply_needs_all_fields_witness :
  get_gemini_response Json.loads (fun _ => Ok "") "prompt" =
    Raise (Reraised "Error generating response"
             (Exception "Empty response received from Gemini"))
  /\ get_gemini_response Json.loads (fun _ => Raise (Exception "quota")) "prompt" =
       Raise (Reraised "Error generating response" (Exception "quota"))
  /\ Json.loads (Json.dumps (VDict sample_result)) = Some (VDict sample_result)
  /\ first_missing sample_result = Some "Profile Summary"
  /\ get_gemini_response Json.loads
       (fun _ => Ok (Json.dumps (VDict sample_result))) "prompt" =
     Raise (Reraised "Error generating response"
              (ValueError "Missing required field: Profile Summary")).
Proof.
  split; [|split; [|split; [|split]]].
  - apply (proj1 (strict_reply_needs_all_fields Json.loads (fun _ => Ok ""))).
    reflexivity.
  - apply (proj1 (proj2 (strict_reply_needs_all_fields Json.loads
                           (fun _ => Raise (Exception "quota"))))).
    reflexivity.
  - vm_compute. reflexivity.
  - reflexivity.
  - apply (proj1 (proj2 (proj2 (strict_reply_needs_all_fields Json.loads
                                  (fun _ => Ok (Json.dumps (VDict sample_result)))))
                   "prompt" (Json.dumps (VDict sample_result)) sample_result
                   eq_refl ltac:(discriminate) ltac:(vm_compute; reflexivity))).
Defined.


Lemma validator_accepts_iff_witness :
  score_passes sample_result "JD Match" && score_passes sample_result "ATSScore"
    = true
  /\ process_ats_results Json.loads (VDict sample_result) = Ok (VDict sample_result).
Proof.
  split; [reflexivity|].
  apply (proj2 (validator_accepts_iff Json.loads sample_result)). reflexivity.
Defined.

Lemma validator_on_other_json_witness :
  (Json.loads "[1, 2]" = Some (VList [VInt 1; VInt 2])
   /\ process_ats_results Json.loads (VStr "[1, 2]") = Ok (VList [VInt 1; VInt 2]))
  /\ (Json.loads "42" = Some (VInt 42)
      /\ process_ats_results Json.loads (VStr "42") =
         Raise (Reraised "Error processing ATS results" TypeError)).
Proof.
  destruct (validator_on_other_json Json.loads) as [Hl Hs].
  split; (split; [reflexivity|]).
  - apply (Hl "[1, 2]" [VInt 1; VInt 2]). reflexivity.
  - apply (Hs "42" (VInt 42)); [reflexivity|].
    right. right. now exists 42.
Defined.

(** ** Further properties: integer scores, the score card after validation,
       and the trimming of the prompt inputs *)

Lemma forallb_impl (p q : ascii -> bool) (s : string) :
  (forall c, p c = true -> q c = true) ->
  Py.forallb p s = true -> Py.forallb q s = true.
Proof.
  intros Hpq. induction s as [|c s IH]; [reflexivity|].
  cbn [Py.forallb]. intros H. apply andb_true_iff in H as [Hc Hs].
  now rewrite (Hpq c Hc), (IH Hs).
Qed.

Lemma isdecimal_nonspace (c : ascii) :
  Py.isdecimal c = true -> nonspace c = true.
Proof.
  unfold Py.isdecimal, nonspace, Py.isspace. cbv zeta.
  intros H. apply andb_true_iff in H as [Hlo Hhi].
  apply Z.leb_le in Hlo, Hhi. apply negb_true_iff.
  repeat (apply orb_false_iff; split);
    try (apply andb_false_iff);
    try (apply Z.eqb_neq; lia);
    try (left; apply Z.leb_gt; lia);
    try (right; apply Z.leb_gt; lia).
Qed.

Lemma isdecimal_isdigit (c : ascii) :
  Py.isdecimal c = true -> Py.isdigit c = true.
Proof. unfold Py.isdigit. cbv zeta. now intros ->. Qed.

Lemma uint_string_decimal (u : Decimal.uint) :
  Py.forallb Py.isdecimal (NilEmpty.string_of_uint u) = true.
Proof. induction u; cbn [NilEmpty.string_of_uint Py.forallb]; auto. Qed.

Ltac digit_step IH :=
  cbn [NilEmpty.string_of_uint Py.decimal_value Pos.of_uint_acc];
  rewrite <- IH; f_equal;
  match goal with
  | |- context [Py.code ?c] =>
      let n := eval vm_compute in (Py.code c) in
      change (Py.code c) with n
  end; lia.

Lemma decimal_value_acc (u : Decimal.uint) :
  forall acc : positive,
    Py.decimal_value (Z.pos acc) (NilEmpty.string_of_uint u) =
      Z.pos (Pos.of_uint_acc u acc).
Proof.
  induction u as [|u IH|u IH|u IH|u IH|u IH|u IH|u IH|u IH|u IH|u IH];
    intros acc; [reflexivity | digit_step IH ..].
Qed.

Lemma decimal_value_uint (u : Decimal.uint) :
  Py.decimal_value 0 (NilEmpty.string_of_uint u) = Z.of_uint u.
Proof.
  unfold Z.of_uint.
  induction u as [|u IH|u IH|u IH|u IH|u IH|u IH|u IH|u IH|u IH|u IH];
    [reflexivity | exact IH | ..];
    cbn [NilEmpty.string_of_uint Py.decimal_value Pos.of_uint Z.of_N];
    rewrite <- decimal_value_acc; f_equal.
Qed.

(** The digits that [str] prints for a natural number read back as it. *)
Lemma digits_round_trip (u : Decimal.uint) :
  NilZero.string_of_uint u <> ""
  /\ Py.forallb Py.isdecimal (NilZero.string_of_uint u) = true
  /\ Py.decimal_value 0 (NilZero.string_of_uint u) = Z.of_uint u.
Proof.
  destruct u;
    (split; [discriminate | split;
              [first [reflexivity | apply (uint_string_decimal (_ _))]
              | first [reflexivity | apply (decimal_value_uint (_ _))]]]).
Qed.

Lemma score_number_bare_token (tok : string) :
  tok <> "" ->
  Py.forallb nonspace tok = true ->
  score_number tok = Py.int (Py.filter Py.isdigit tok).
Proof.
  intros Hne Htok.
  pose proof (score_number_first_token "" tok "" eq_refl Hne Htok eq_refl) as H.
  cbn [append] in H. now rewrite app_empty_r in H.
Qed.

Lemma score_number_digits (u : Decimal.uint) (sign : string) :
  (String.length (NilZero.string_of_uint u) <= Py.max_str_digits)%nat ->
  Py.forallb nonspace sign = true ->
  Py.forallb nondigit sign = true ->
  score_number (sign ++ NilZero.string_of_uint u) = Ok (Z.of_uint u).
Proof.
  intros Hlen Hs1 Hs2.
  destruct (digits_round_trip u) as (Hne & Hdec & Hval).
  rewrite score_number_bare_token.
  - rewrite filter_app, (filter_none _ _ Hs2).
    rewrite (filter_all _ _ (forallb_impl _ _ _ isdecimal_isdigit Hdec)).
    cbn [append]. now rewrite (int_decimal_run _ Hne Hdec Hlen), Hval.
  - destruct sign; [exact Hne | discriminate].
  - clear Hval Hlen Hne.
    pose proof (forallb_impl _ _ _ isdecimal_nonspace Hdec) as Hd.
    revert Hs1. induction sign as [|c sign IH]; [intros _; exact Hd|].
    cbn [append Py.forallb]. intros H.
    apply andb_true_iff in H as [Hc Hr]. rewrite Hc.
    cbn [Py.forallb nondigit] in Hs2. apply andb_true_iff in Hs2 as [_ Hs2].
    exact (IH Hs2 Hr).
Qed.

Lemma score_number_int (z : Z) :
  (String.length (Val.str_int (Z.abs z)) <= Py.max_str_digits)%nat ->
  score_number (Val.str (VInt z)) = Ok (Z.abs z).
Proof.
  intros Hlen. cbn [Val.str Val.repr]. unfold Val.str_int in *.
  destruct z as [|p|p].
  - reflexivity.
  - pose proof (DecimalZ.of_to (Z.pos p)) as Hz.
    change (Z.of_uint (Pos.to_uint p) = Z.pos p) in Hz.
    change (score_number ("" ++ NilZero.string_of_uint (Pos.to_uint p)) =
            Ok (Z.pos p)).
    rewrite <- Hz.
    exact (score_number_digits (Pos.to_uint p) "" Hlen eq_refl eq_refl).
  - pose proof (DecimalZ.of_to (Z.pos p)) as Hz.
    change (Z.of_uint (Pos.to_uint p) = Z.pos p) in Hz.
    change (score_number ("-" ++ NilZero.string_of_uint (Pos.to_uint p)) =
            Ok (Z.pos p)).
    rewrite <- Hz.
    exact (score_number_digits (Pos.to_uint p) "-" Hlen eq_refl eq_refl).
Qed.

Lemma rstrip_idempotent (s : string) : Py.rstrip (Py.rstrip s) = Py.rstrip s.
Proof.
  induction s as [|c s IH]; [reflexivity|].
  cbn [Py.rstrip]. destruct (Py.rstrip s) as [|a t] eqn:E.
  - destruct (Py.isspace c) eqn:Ec; [reflexivity|].
    cbn [Py.rstrip]. now rewrite Ec.
  - cbn [Py.rstrip]. cbn [Py.rstrip] in IH.
    destruct (Py.rstrip t) as [|b t'] eqn:Et.
    + destruct (Py.isspace a); [discriminate|]. now rewrite IH.
    + now rewrite IH.
Qed.

Lemma lstrip_head (s : string) :
  match Py.lstrip s with
  | EmptyString => True
  | String c _ => Py.isspace c = false
  end.
Proof.
  induction s as [|c s IH]; [exact I|].
  cbn [Py.lstrip]. destruct (Py.isspace c) eqn:E; [exact IH | exact E].
Qed.

Lemma lstrip_rstrip (t : string) :
  match t with
  | EmptyString => True
  | String c _ => Py.isspace c = false
  end ->
  Py.lstrip (Py.rstrip t) = Py.rstrip t.
Proof.
  destruct t as [|c t]; [reflexivity|]. intros Hc.
  cbn [Py.rstrip]. destruct (Py.rstrip t).
  - rewrite Hc. cbn [Py.lstrip]. now rewrite Hc.
  - cbn [Py.lstrip]. now rewrite Hc.
Qed.

Lemma strip_idempotent (s : string) : Py.strip (Py.strip s) = Py.strip s.
Proof.
  unfold Py.strip.
  now rewrite (lstrip_rstrip (Py.lstrip s) (lstrip_head s)), rstrip_idempotent.
Qed.

Section DisplayProperties.

Variable json_loads : string -> option value.

(** X7.  An integer score is read by its magnitude: [str] prints the sign
    and the digits, and the extraction keeps the digits only.  So the
    validator accepts an integer score exactly from -100 to 100 (the text
    of the integer within the length limit of [int]). *)
Theorem integer_scores_read_by_magnitude :
  forall z : Z,
    (String.length (Val.str_int (Z.abs z)) <= Py.max_str_digits)%nat ->
    score_number (Val.str (VInt z)) = Ok (Z.abs z)
    /\ forall f : string,
        f = "JD Match" \/ f = "ATSScore" ->
        (succeeds (process_ats_results json_loads (VDict [(f, VInt z)])) = true
         <-> -100 <= z <= 100).
Proof.
  intros z Hlen. pose proof (score_number_int z Hlen) as Hn.
  split; [exact Hn|]. intros f Hf.
  assert (Hv : succeeds (process_ats_results json_loads (VDict [(f, VInt z)])) =
               in_range (Z.abs z)).
  { assert (Hs : forall g, succeeds (check_score (VDict [(f, VInt z)]) g) =
                           if String.eqb f g then in_range (Z.abs z) else true).
    { intros g. rewrite check_score_passes. unfold score_passes.
      cbn [Val.lookup]. destruct (String.eqb f g); [now rewrite Hn | reflexivity]. }
    rewrite process_dict, check_scores_split.
    pose proof (Hs "JD Match") as H1. pose proof (Hs "ATSScore") as H2.
    destruct (check_score (VDict [(f, VInt z)]) "JD Match") as [[]|e1];
      destruct (check_score (VDict [(f, VInt z)]) "ATSScore") as [[]|e2];
      cbn in H1, H2 |- *;
      destruct Hf as [-> | ->]; cbn in H1, H2; congruence. }
  rewrite Hv. unfold in_range. rewrite andb_true_iff, !Z.leb_le. lia.
Qed.

(** X8.  On a mapping that the validator accepts, the score card and the
    score table of the report never raise: each shows, for a score field
    that is present, the number validated, and 0 for one that is absent,
    and every number shown lies from 0 to 100. *)
Theorem validated_scores_display :
  forall d : list (string * value),
    succeeds (process_ats_results json_loads (VDict d)) = true ->
    exists n1 n2 : Z,
      in_range n1 = true /\ in_range n2 = true
      /\ display_score_card (field_or d "JD Match" (VStr "N/A"))
           (field_or d "ATSScore" (VStr "N/A")) =
         Ok (Metric n1 (percent n1) (match_color n1),
             Metric n2 (percent n2) (ats_color n2))
      /\ score_data (VDict d) =
           Ok [ ["Metric"; "Score"; "Status"];
                ["Job Description Match"; percent n1; match_status n1];
                ["ATS Optimization Score"; percent n2; ats_status n2] ]
      /\ (Val.lookup "JD Match" d = None -> n1 = 0)
      /\ (Val.lookup "ATSScore" d = None -> n2 = 0)
      /\ (forall v, Val.lookup "JD Match" d = Some v ->
                    score_number (Val.str v) = Ok n1)
      /\ (forall v, Val.lookup "ATSScore" d = Some v ->
                    score_number (Val.str v) = Ok n2).
Proof.
  intros d Hok. rewrite process_dict in Hok.
  destruct (check_scores (VDict d)) as [[]|e] eqn:Hc; [|discriminate].
  apply check_scores_ok in Hc as [H1 H2].
  destruct (check_score_shown d _ H1) as (n1 & Hr1 & Hz1 & Ha1 & Hv1).
  destruct (check_score_shown d _ H2) as (n2 & Hr2 & Hz2 & Ha2 & Hv2).
  exists n1, n2. repeat split; try assumption.
  - unfold display_score_card. now rewrite Hz1, Hz2.
  - unfold score_data. cbn [Val.get bind].
    fold (field_or d "JD Match" (VStr "N/A")).
    fold (field_or d "ATSScore" (VStr "N/A")).
    now rewrite Hz1, Hz2.
Qed.

End DisplayProperties.

(** X9.  Whitespace around the two inputs does not reach the prompt: the
    prompt of two texts is the prompt of the two texts trimmed, as long as
    something is left of each. *)
Theorem prompt_ignores_surrounding_whitespace :
  forall r j : string,
    Py.strip r <> "" -> Py.strip j <> "" ->
    prepare_prompt r j = prepare_prompt (Py.strip r) (Py.strip j).
Proof.
  intros r j Hr Hj.
  assert (Hr0 : r <> "") by (intros ->; now apply Hr).
  assert (Hj0 : j <> "") by (intros ->; now apply Hj).
  rewrite (prepare_prompt_filled r j Hr0 Hj0).
  rewrite (prepare_prompt_filled _ _ Hr Hj).
  now rewrite !strip_idempotent.
Qed.

Lemma integer_scores_read_by_magnitude_witness :
  (String.length (Val.str_int (Z.abs (-85))) <= Py.max_str_digits)%nat
  /\ score_number (Val.str (VInt (-85))) = Ok 85
  /\ succeeds (process_ats_results Json.loads (VDict [("ATSScore", VInt (-85))]))
       = true
  /\ -100 <= -85 <= 100.
Proof.
  assert (Hlen : (String.length (Val.str_int (Z.abs (-85))) <= Py.max_str_digits)%nat)
    by (apply Nat.leb_le; vm_compute; reflexivity).
  destruct (integer_scores_read_by_magnitude Json.loads (-85) Hlen) as [H1 H2].
  split; [exact Hlen|]. split; [exact H1|]. split; [reflexivity|].
  apply (proj1 (H2 "ATSScore" (or_intror eq_refl))). reflexivity.
Defined.

Lemma validated_scores_display_witness :
  succeeds (process_ats_results Json.loads
              (VDict [("ATSScore", VStr "82 - parses well")])) = true
  /\ display_score_card (VStr "N/A") (VStr "82 - parses well") =
       Ok (Metric 0 "0%" "red", Metric 82 "82%" "green")
  /\ exists n1 n2 : Z,
      score_data (VDict [("ATSScore", VStr "82 - parses well")]) =
        Ok [ ["Metric"; "Score"; "Status"];
             ["Job Description Match"; percent n1; match_status n1];
             ["ATS Optimization Score"; percent n2; ats_status n2] ]
      /\ n1 = 0.
Proof.
  split; [reflexivity|]. split; [reflexivity|].
  destruct (validated_scores_display Json.loads
              [("ATSScore", VStr "82 - parses well")] eq_refl)
    as (n1 & n2 & _ & _ & _ & Hdata & Hz & _).
  exists n1, n2. split; [exact Hdata | now apply Hz].
Defined.

Lemma prompt_ignores_surrounding_whitespace_witness :
  Py.strip "  Jane Doe " <> ""
  /\ Py.strip " Rocq developer" <> ""
  /\ prepare_prompt "  Jane Doe " " Rocq developer" =
       prepare_prompt "Jane Doe" "Rocq developer".
Proof.
  split; [discriminate|]. split; [discriminate|].
  apply (prompt_ignores_surrounding_whitespace "  Jane Doe " " Rocq developer");
    discriminate.
Defined.

(** ** Further properties: the session state and the analyse button *)

Lemma lookup_set_same (k : string) (v : value) (d : list (string * value)) :
  Val.lookup k (Json.dict_set k v d) = Some v.
Proof.
  induction d as [|[k' v'] d IH]; cbn [Json.dict_set Val.lookup].
  - now rewrite String.eqb_refl.
  - destruct (String.eqb k' k) eqn:E; cbn [Val.lookup]; now rewrite E.
Qed.

Lemma lookup_set_other (k k0 : string) (v : value) (d : list (string * value)) :
  k <> k0 -> Val.lookup k0 (Json.dict_set k v d) = Val.lookup k0 d.
Proof.
  intros Hne. induction d as [|[k' v'] d IH]; cbn [Json.dict_set Val.lookup].
  - apply String.eqb_neq in Hne. now rewrite Hne.
  - destruct (String.eqb_spec k' k) as [->|Hk]; cbn [Val.lookup].
    + apply String.eqb_neq in Hne. now rewrite Hne.
    + now rewrite IH.
Qed.

(** Setting an entry only where there is none. *)
Lemma lookup_default (k k0 : string) (v : value) (st : session) :
  Val.lookup k0 (if has_key k st then st else session_set k v st) =
    match Val.lookup k0 st with
    | Some x => Some x
    | None => if String.eqb k k0 then Some v else None
    end.
Proof.
  unfold has_key, session_set.
  destruct (String.eqb_spec k k0) as [->|Hne].
  - destruct (Val.lookup k0 st) as [x|] eqn:E; [exact E|].
    apply lookup_set_same.
  - destruct (Val.lookup k st) eqn:Ek.
    + now destruct (Val.lookup k0 st).
    + rewrite (lookup_set_other _ _ _ _ Hne). now destruct (Val.lookup k0 st).
Qed.

Lemma init_session_state_lookup (st : session) (k0 : string) :
  Val.lookup k0 (init_session_state st) =
    match Val.lookup k0 st with
    | Some x => Some x
    | None =>
        if String.eqb "processing" k0 then Some (VBool false)
        else if String.eqb "analysis_results" k0 then Some VNone
        else if String.eqb "show_detailed_view" k0 then Some (VBool false)
        else None
    end.
Proof.
  unfold init_session_state. cbv zeta. rewrite !lookup_default.
  destruct (Val.lookup k0 st); [reflexivity|].
  destruct (String.eqb "processing" k0); [reflexivity|].
  now destruct (String.eqb "analysis_results" k0).
Qed.

(** X10.  [init_session_state] never overwrites an entry of the session: it
    gives the three entries of the application their defaults only where
    they are missing, leaves every other entry alone, and running it again
    changes nothing. *)
Theorem init_session_state_defaults :
  forall st : session,
    (forall k v, Val.lookup k st = Some v ->
                 Val.lookup k (init_session_state st) = Some v)
    /\ Val.lookup "processing" (init_session_state st) =
         Some (field_or st "processing" (VBool false))
    /\ Val.lookup "analysis_results" (init_session_state st) =
         Some (field_or st "analysis_results" VNone)
    /\ Val.lookup "show_detailed_view" (init_session_state st) =
         Some (field_or st "show_detailed_view" (VBool false))
    /\ (forall k, k <> "processing" -> k <> "analysis_results" ->
                  k <> "show_detailed_view" ->
                  Val.lookup k (init_session_state st) = Val.lookup k st)
    /\ init_session_state (init_session_state st) = init_session_state st.
Proof.
  intros st.
  split; [|split; [|split; [|split; [|split]]]].
  - intros k v H. now rewrite init_session_state_lookup, H.
  - rewrite init_session_state_lookup. unfold field_or.
    now destruct (Val.lookup "processing" st).
  - rewrite init_session_state_lookup. unfold field_or.
    now destruct (Val.lookup "analysis_results" st).
  - rewrite init_session_state_lookup. unfold field_or.
    now destruct (Val.lookup "show_detailed_view" st).
  - intros k H1 H2 H3'. rewrite init_session_state_lookup.
    destruct (Val.lookup k st); [reflexivity|].
    apply not_eq_sym, String.eqb_neq in H1, H2, H3'. now rewrite H1, H2, H3'.
  - remember (init_session_state st) as st' eqn:E.
    unfold init_session_state at 1. cbv zeta.
    assert (Hp : has_key "processing" st' = true).
    { unfold has_key. rewrite E, init_session_state_lookup.
      now destruct (Val.lookup "processing" st). }
    assert (Ha : has_key "analysis_results" st' = true).
    { unfold has_key. rewrite E, init_session_state_lookup.
      now destruct (Val.lookup "analysis_results" st). }
    assert (Hs : has_key "show_detailed_view" st' = true).
    { unfold has_key. rewrite E, init_session_state_lookup.
      now destruct (Val.lookup "show_detailed_view" st). }
    now rewrite Hp, Ha, Hs.
Qed.

Lemma for_each_head {A : Type} (body : A -> result unit) (x : A) (l : list A) :
  for_each body (x :: l) = Ok tt -> body x = Ok tt.
Proof.
  cbn [for_each]. destruct (body x) as [[]|e]; [reflexivity | discriminate].
Qed.

Lemma contains_truthy (x : value) :
  Val.contains x "JD Match" = Ok true -> truthy x = true.
Proof.
  destruct x as [| | |s|l|d]; cbn [Val.contains]; try discriminate; intros H;
    injection H as H.
  - destruct s; [discriminate | reflexivity].
  - destruct l; [discriminate | reflexivity].
  - destruct d; [discriminate | reflexivity].
Qed.

Section HandlerProperties.

Variable json_loads : string -> option value.
Variable generate_content : string -> result string.

Lemma run_analysis_ok (file : pdf_file) (jd : string) (v : value) :
  run_analysis json_loads generate_content file jd = Ok v ->
  exists resume prompt response : string,
    extract_pdf_text file = Ok resume
    /\ prepare_prompt resume jd = Ok prompt
    /\ get_gemini_response json_loads generate_content prompt = Ok response
    /\ json_loads response = Some v
    /\ check_scores v = Ok tt.
Proof.
  unfold run_analysis. intros H.
  destruct (extract_pdf_text file) as [resume|e] eqn:E1; [|discriminate].
  cbn [bind] in H.
  destruct (prepare_prompt resume jd) as [prompt|e] eqn:E2; [|discriminate].
  cbn [bind] in H.
  destruct (get_gemini_response json_loads generate_content prompt)
    as [response|e] eqn:E3; [|discriminate].
  cbn [bind] in H. exists resume, prompt, response.
  unfold process_ats_results, loads_if_str, loads in H.
  destruct (json_loads response) as [x|] eqn:Ex; [|discriminate].
  cbn [bind] in H.
  destruct (check_scores x) as [[]|e] eqn:Ec; [|discriminate].
  cbn in H. injection H as <-. now repeat split.
Qed.

Lemma get_gemini_response_ok (prompt response : string) :
  get_gemini_response json_loads generate_content prompt = Ok response ->
  exists text : string,
    generate_content prompt = Ok text
    /\ text <> ""
    /\ match json_loads text with
       | Some x =>
           response = text
           /\ Val.contains x "JD Match" = Ok true
           /\ Val.contains x "ATSScore" = Ok true
       | None => brace_region text = Some response
       end.
Proof.
  unfold get_gemini_response. intros H.
  destruct (generate_content prompt) as [text|e]; [|discriminate].
  cbn [bind] in H. exists text. split; [reflexivity|].
  destruct (String.eqb text "") eqn:Hne; [discriminate|].
  apply String.eqb_neq in Hne. split; [exact Hne|].
  destruct (json_loads text) as [x|].
  - match type of H with
    | except_reraise _ (bind ?r _) = _ => destruct r as [[]|e] eqn:E
    end; [|discriminate].
    cbn in H. injection H as <-. split; [reflexivity|].
    unfold required_fields in E.
    assert (Hf : forall f,
               In f ["JD Match"; "MissingKeywords"; "Profile Summary";
                     "SkillsAlignment"; "ExperienceMatch"; "Recommendations";
                     "ATSScore"] ->
               Val.contains x f = Ok true).
    { revert E.
      generalize ["JD Match"; "MissingKeywords"; "Profile Summary";
                  "SkillsAlignment"; "ExperienceMatch"; "Recommendations";
                  "ATSScore"].
      intros l. induction l as [|g l IH]; intros E f Hin; [destruct Hin|].
      cbn [for_each] in E.
      destruct (Val.contains x g) as [b|e] eqn:Eg; [|discriminate].
      cbn [bind] in E. destruct b; [|discriminate]. cbn in E.
      destruct Hin as [<-|Hin]; [exact Eg | exact (IH E f Hin)]. }
    split; apply Hf; cbn; tauto.
  - rewrite search_brace_region in H.
    destruct (brace_region text); [|discriminate].
    cbn in H. now injection H as <-.
Qed.


(** X12.  A result that the four steps return is the parse of the client's
    response and passes the score checks.  When the reply of the model
    itself parses to a mapping, the result is that mapping, it has all the
    required fields, and both of its scores read numbers from 0 to 100. *)
Theorem stored_result_is_validated :
  forall (file : pdf_file) (jd : string) (v : value),
    run_analysis json_loads generate_content file jd = Ok v ->
    jd <> ""
    /\ exists resume prompt response : string,
        extract_pdf_text file = Ok resume
        /\ resume <> ""
        /\ prepare_prompt resume jd = Ok prompt
        /\ get_gemini_response json_loads generate_content prompt = Ok response
        /\ json_loads response = Some v
        /\ check_scores v = Ok tt
        /\ forall (text : string) (d : list (string * value)),
            generate_content prompt = Ok text ->
            json_loads text = Some (VDict d) ->
            v = VDict d
            /\ first_missing d = None
            /\ exists (v1 v2 : value) (n1 n2 : Z),
                Val.lookup "JD Match" d = Some v1
                /\ Val.lookup "ATSScore" d = Some v2
                /\ score_number (Val.str v1) = Ok n1
                /\ score_number (Val.str v2) = Ok n2
                /\ in_range n1 = true /\ in_range n2 = true.
Proof.
  intros file jd v H.
  destruct (run_analysis_ok _ _ _ H)
    as (resume & prompt & response & He & Hp & Hg & Hj & Hc).
  pose proof (extract_pdf_text_nonempty _ _ He) as Hne.
  split.
  { intros ->. unfold prepare_prompt in Hp.
    rewrite String.eqb_refl, orb_true_r in Hp. discriminate. }
  exists resume, prompt, response. do 6 (split; [assumption|]).
  intros text d Ht Hd.
  destruct (get_gemini_response_ok _ _ Hg) as (text' & Ht' & _ & Hcase).
  rewrite Ht in Ht'. injection Ht' as <-. rewrite Hd in Hcase.
  destruct Hcase as (-> & _ & _).
  rewrite Hd in Hj. injection Hj as <-.
  assert (Hm : first_missing d = None).
  { unfold get_gemini_response in Hg. rewrite Ht in Hg. cbn [bind] in Hg.
    destruct (String.eqb text ""); [discriminate|].
    rewrite Hd, for_each_required in Hg. fold (first_missing d) in Hg.
    now destruct (first_missing d). }
  split; [reflexivity|]. split; [exact Hm|].
  unfold first_missing in Hm.
  pose proof (List.find_none _ _ Hm "JD Match" ltac:(cbn; tauto)) as H1.
  pose proof (List.find_none _ _ Hm "ATSScore" ltac:(cbn; tauto)) as H2.
  apply negb_false_iff in H1, H2. unfold has_key in H1, H2.
  destruct (Val.lookup "JD Match" d) as [v1|] eqn:E1; [|discriminate].
  destruct (Val.lookup "ATSScore" d) as [v2|] eqn:E2; [|discriminate].
  apply check_scores_ok in Hc as [Hc1 Hc2].
  destruct (check_score_ok d _ v1 E1 Hc1) as (n1 & Hn1 & Hr1).
  destruct (check_score_ok d _ v2 E2 Hc2) as (n2 & Hn2 & Hr2).
  exists v1, v2, n1, n2. now repeat split.
Qed.

(** X13.  A result can be stored and yet not rendered: [main] shows the
    results only when the stored value is truthy.  This happens only when
    the reply of the model did not parse and the result comes from the
    recovered region, as with a region that is an empty object; a reply
    that parses and passes the field check never gives a falsy result. *)
Theorem falsy_result_stored_not_shown :
  forall (file : pdf_file) (jd : string) (v : value) (st : session),
    Py.strip jd <> "" ->
    run_analysis json_loads generate_content file jd = Ok v ->
    truthy v = false ->
    (exists st',
        analyze json_loads generate_content jd (Some file) st = (Stored, st')
        /\ Val.lookup "analysis_results" st' = Some v
        /\ results_shown st' = Ok false)
    /\ exists prompt text response : string,
        generate_content prompt = Ok text
        /\ json_loads text = None
        /\ brace_region text = Some response
        /\ json_loads response = Some v.
Proof.
  intros file jd v st Hjd H Hv. split.
  - unfold analyze. apply String.eqb_neq in Hjd. rewrite Hjd, H.
    eexists. split; [reflexivity|].
    assert (Hl : Val.lookup "analysis_results"
                   (session_set "processing" (VBool false)
                      (session_set "analysis_results" v
                         (session_set "processing" (VBool true) st))) = Some v).
    { unfold session_set. rewrite lookup_set_other by discriminate.
      apply lookup_set_same. }
    split; [exact Hl|]. unfold results_shown. now rewrite Hl, Hv.
  - destruct (run_analysis_ok _ _ _ H)
      as (resume & prompt & response & _ & _ & Hg & Hj & _).
    destruct (get_gemini_response_ok _ _ Hg) as (text & Ht & _ & Hcase).
    exists prompt, text, response.
    destruct (json_loads text) as [x|] eqn:Ex.
    + destruct Hcase as (-> & Hin & _).
      rewrite Ex in Hj. injection Hj as <-.
      rewrite (contains_truthy _ Hin) in Hv. discriminate.
    + now repeat split.
Qed.

End HandlerProperties.

Section ReplyProperties.

Variable json_loads : string -> option value.
Variable generate_content : string -> result string.


End ReplyProperties.

(** ** The further theorems at concrete inputs *)

Lemma init_session_state_defaults_witness :
  Val.lookup "analysis_results" [("analysis_results", VStr "kept")] =
    Some (VStr "kept")
  /\ Val.lookup "analysis_results"
       (init_session_state [("analysis_results", VStr "kept")]) =
     Some (VStr "kept")
  /\ "theme" <> "processing"
  /\ Val.lookup "theme" (init_session_state [("theme", VStr "dark")]) =
       Val.lookup "theme" [("theme", VStr "dark")].
Proof.
  split; [reflexivity|]. split.
  - apply (proj1 (init_session_state_defaults [("analysis_results", VStr "kept")])).
    reflexivity.
  - split; [discriminate|].
    apply (proj1 (proj2 (proj2 (proj2 (proj2
             (init_session_state_defaults [("theme", VStr "dark")]))))));
      discriminate.
Defined.


Lemma stored_result_is_validated_witness :
  run_analysis Json.loads (fun _ => Ok (Json.dumps (VDict sample_full_result)))
    sample_pdf "Rocq developer" = Ok (VDict sample_full_result)
  /\ exists resume prompt response : string,
      extract_pdf_text sample_pdf = Ok resume
      /\ get_gemini_response Json.loads
           (fun _ => Ok (Json.dumps (VDict sample_full_result))) prompt =
         Ok response
      /\ check_scores (VDict sample_full_result) = Ok tt.
Proof.
  assert (H : run_analysis Json.loads
                (fun _ => Ok (Json.dumps (VDict sample_full_result)))
                sample_pdf "Rocq developer" = Ok (VDict sample_full_result))
    by (vm_compute; reflexivity).
  split; [exact H|].
  destruct (stored_result_is_validated Json.loads _ _ _ _ H)
    as (_ & resume & prompt & response & He & _ & _ & Hg & _ & Hc & _).
  exists resume, prompt, response. now repeat split.
Defined.

Lemma falsy_result_stored_not_shown_witness :
  Py.strip "Rocq developer" <> ""
  /\ run_analysis Json.loads (fun _ => Ok "I could not analyse this resume. {}")
       sample_pdf "Rocq developer" = Ok (VDict [])
  /\ truthy (VDict []) = false
  /\ exists st' : session,
      analyze Json.loads (fun _ => Ok "I could not analyse this resume. {}")
        "Rocq developer" (Some sample_pdf) sample_session = (Stored, st')
      /\ Val.lookup "analysis_results" st' = Some (VDict [])
      /\ results_shown st' = Ok false.
Proof.
  assert (H : run_analysis Json.loads
                (fun _ => Ok "I could not analyse this resume. {}")
                sample_pdf "Rocq developer" = Ok (VDict []))
    by (vm_compute; reflexivity).
  split; [discriminate|]. split; [exact H|]. split; [reflexivity|].
  exact (proj1 (falsy_result_stored_not_shown Json.loads _ sample_pdf
                  "Rocq developer" (VDict []) sample_session
                  ltac:(discriminate) H eq_refl)).
Defined.

